(** * Otto mock SSE server ([simple-sse-server.py])

    A shallow embedding of [SSEHandler.do_GET] and [SSEHandler.do_OPTIONS]
    and the properties of the event stream they produce.

    The handler is effectful: it reads the clock, writes to the client
    socket, sleeps, and prints.  It is embedded in a small monad [M] that
    threads the number of clock readings and socket writes made so far,
    may raise a Python exception, and records the effects of the handler
    in an output trace: the lines printed (the access line that
    [send_response] logs through [SSEHandler.log_message] included), the
    status line and the headers put in the header buffer ([Server] and
    [Date] included), the writes of the body, the flushes and the sleeps.
    Everything outside the program (the clock, the fate of each write of
    the body) is an oracle of the environment [Env]; the Python library
    functions whose results the handler consumes ([int], [float],
    [time.sleep]'s argument check, the server's version string) are
    fields of [PyRuntime].  The write by which [end_headers] hands the
    header buffer to the socket is not modelled: it is taken to go
    through. *)

From Stdlib Require Import ZArith QArith.QArith_base Ascii String.
From Stdlib Require Import DecimalString DecimalNat DecimalZ Lia.
From stdpp Require Import base tactics option list strings gmap.

Local Open Scope Z_scope.

(** ** Python values, exceptions *)

(** The elements of the lists returned by [query.get(key, default)]: the
    values produced by [parse_qs] are [str], the defaults are [int]. *)
Inductive pyval :=
| PStr (s : string)
| PInt (n : Z).

(** What a failing socket write raises.  All are subclasses of [OSError];
    only the first is matched by [except BrokenPipeError]. *)
Inductive oserror :=
| BrokenPipeError
| ConnectionResetError
| OtherOSError.

(** The exceptions the handler can meet.  All derive from [Exception]. *)
Inductive exn :=
| OSError (e : oserror)
| ValueError
| OverflowError
| IndexError
| TypeError.

Global Instance oserror_eq_dec : EqDecision oserror.
Proof. solve_decision. Defined.
Global Instance exn_eq_dec : EqDecision exn.
Proof. solve_decision. Defined.

(** JSON-serialisable values and dict literals (insertion-ordered). *)
Inductive json :=
| JStr (s : string)
| JInt (n : Z).

Definition pydict := list (string * json).

Global Instance json_eq_dec : EqDecision json.
Proof. solve_decision. Defined.

(** [d[key]] for a dict literal. *)
Fixpoint dict_get (d : pydict) (key : string) : option json :=
  match d with
  | [] => None
  | (k, v) :: d' => if bool_decide (k = key) then Some v else dict_get d' key
  end.

(** What is handed to [self.wfile.write]: an SSE frame
    [f"event: {event}\ndata: {json.dumps(data)}\nid: {id}\n\n"], or a bare
    JSON body [json.dumps(data)]. *)
Inductive chunk :=
| SSE (event : string) (data : pydict) (id : string)
| Body (data : pydict).

Global Instance chunk_eq_dec : EqDecision chunk.
Proof. solve_decision. Defined.

(** ** Decimal rendering, as done by an f-string on an [int] *)

Definition str_nat (n : nat) : string :=
  NilEmpty.string_of_uint (Nat.to_uint n).

Definition str_int (z : Z) : string :=
  NilZero.string_of_int (Z.to_int z).

(** ** The parts of the Python runtime the handler relies on *)

Class PyRuntime := {
  (** Python's [float] values *)
  float : Type;
  (** [float(s)] on a [str]; [None] stands for [ValueError] *)
  float_of_str : string -> option float;
  (** [float(n)] on an [int] *)
  float_of_int : Z -> float;
  (** [x / y] on floats *)
  float_div : float -> float -> float;
  (** [int(s)] on a [str]; [None] stands for [ValueError] *)
  int_of_str : string -> option Z;
  (** the argument check of [time.sleep(x)]: [Some e] when the call raises
      [e] instead of sleeping (negative, NaN or too large an argument) *)
  sleep_error : float -> option exn;
  (** [BaseHTTPRequestHandler.version_string()], the value of the
      [Server] header *)
  version_string : string;
}.

(** The environment of one request. *)
Record Env := {
  (** the value of [int(time.time() * 1000)] at the n-th reading *)
  now_ms : nat -> Z;
  (** [time.strftime(format)] *)
  strftime : string -> string;
  (** the fate of the n-th call of [self.wfile.write] in the handler's
      own code (the calls are counted from 0, and the library's write of
      the header buffer is not among them): [None] when it returns,
      [Some e] when it raises *)
  write_outcome : nat -> option oserror;
  (** [self.date_time_string()], the value of the [Date] header *)
  date_time_string : string;
}.

(** The request as the handler sees it: [self.requestline], the raw
    request line the server read, and the two values the handler derives
    from the target first, [path = urlparse(self.path).path] (the target
    without any [;params], [?query] and [#fragment]) and
    [query = parse_qs(urlparse(self.path).query)] (blank values left
    out). *)
Record request := {
  requestline : string;
  path : string;
  query : gmap string (list string);
}.

(** The one-character string holding a double quote. *)
Definition dquote : string := String "034" EmptyString.

(** [format % args] for a format with [%s] and [%%] only and a tuple of
    [str]; [None] stands for [TypeError] (too few or too many arguments).
    Other directives are not modelled and give [None] too. *)
Fixpoint str_mod (format : string) (args : list string) : option string :=
  match format with
  | EmptyString =>
      match args with
      | [] => Some EmptyString
      | _ :: _ => None
      end
  | String c rest =>
      if bool_decide (c = "%"%char) then
        match rest with
        | String d rest' =>
            if bool_decide (d = "s"%char) then
              match args with
              | a :: args' => String.append a <$> str_mod rest' args'
              | [] => None
              end
            else if bool_decide (d = "%"%char) then
              String "%" <$> str_mod rest' args
            else None
        | EmptyString => None
        end
      else String c <$> str_mod rest args
  end.

(** ** The catalog *)

Definition log_entry (workerId level message timestamp : string) : pydict :=
  [("workerId", JStr workerId); ("level", JStr level);
   ("message", JStr message); ("timestamp", JStr timestamp)].

Definition mock_logs : list pydict := [
  log_entry "worker-1" "INFO" "=== 빌드 시작 ===" "2025-09-09T11:00:00Z";
  log_entry "worker-1" "INFO" "프로젝트 의존성 설치 중..." "2025-09-09T11:00:01Z";
  log_entry "worker-1" "INFO" "패키지 다운로드: axios@5.2.2" "2025-09-09T11:00:02Z";
  log_entry "worker-2" "DEBUG" "TypeScript 컴파일 시작" "2025-09-09T11:00:03Z";
  log_entry "worker-2" "INFO" "컴파일 완료: 125개 파일 처리" "2025-09-09T11:00:05Z";
  log_entry "worker-1" "INFO" "=== 테스트 실행 시작 ===" "2025-09-09T11:00:06Z";
  log_entry "worker-3" "WARN" "WARNING: deprecated package detected" "2025-09-09T11:00:07Z";
  log_entry "worker-2" "INFO" "Jest 테스트 실행 중..." "2025-09-09T11:00:08Z";
  log_entry "worker-2" "INFO" "테스트 통과: should authenticate user" "2025-09-09T11:00:09Z";
  log_entry "worker-1" "INFO" "=== 배포 시작 ===" "2025-09-09T11:00:10Z";
  log_entry "worker-3" "INFO" "Docker 이미지 빌드 중..." "2025-09-09T11:00:12Z";
  log_entry "worker-3" "INFO" "배포 완료: deploy-1757418000" "2025-09-09T11:00:15Z"
].

(** [l[:stop]] with Python's treatment of a negative [stop]. *)
Definition py_slice_to {A} (l : list A) (stop : Z) : list A :=
  if bool_decide (0 <= stop) then take (Z.to_nat stop) l
  else take (Z.to_nat (Z.of_nat (length l) + stop)) l.

(** [query.get(key, default)] *)
Definition query_get (q : gmap string (list string)) (key : string)
    (default : list pyval) : list pyval :=
  match q !! key with
  | Some vs => PStr <$> vs
  | None => default
  end.

Definition stream_path : string :=
  "/api/v1/log-streaming/test/mock-stream/test-task-123".
Definition health_path : string := "/api/v1/log-streaming/health".

(** ** The effect monad *)

(** How many clock readings and socket writes have been made. *)
Record cursor := {
  clock_reads : nat;
  write_calls : nat;
}.

Definition start : cursor := {| clock_reads := 0; write_calls := 0 |}.

Inductive outcome (A : Type) :=
| Ret (a : A)
| Raise (e : exn).
Arguments Ret {A} a.
Arguments Raise {A} e.

Section handler.
Context {rt : PyRuntime}.

(** The observable effects of a handler, in the order they happen. *)
Inductive event :=
| SendResponse (code : Z)
| SendHeader (name value : string)
| EndHeaders
| Wrote (c : chunk)
| WriteFailed (c : chunk) (e : oserror)
| Flushed
| Slept (secs : float)
| Printed (text : string) (arg : option exn).

Definition M (A : Type) : Type := cursor -> outcome A * cursor * list event.

Definition ret {A} (a : A) : M A := fun c => (Ret a, c, []).

Definition bind {A B} (m : M A) (f : A -> M B) : M B := fun c =>
  match m c with
  | (Ret a, c1, tr1) => let '(r, c2, tr2) := f a c1 in (r, c2, tr1 ++ tr2)
  | (Raise e, c1, tr1) => (Raise e, c1, tr1)
  end.

Definition raise {A} (e : exn) : M A := fun c => (Raise e, c, []).

Definition emit (ev : event) : M unit := fun c => (Ret tt, c, [ev]).

(** [try: body / except ... as e: handler e] where the clauses together
    catch every [Exception]. *)
Definition try_except {A} (body : M A) (handler : exn -> M A) : M A := fun c =>
  match body c with
  | (Ret a, c1, tr1) => (Ret a, c1, tr1)
  | (Raise e, c1, tr1) => let '(r, c2, tr2) := handler e c1 in (r, c2, tr1 ++ tr2)
  end.

Global Instance M_ret : MRet M := @ret.
Global Instance M_bind : MBind M := fun A B f m => bind m f.

(** *** Primitive operations *)

Context (env : Env).

(** [int(time.time() * 1000)] *)
Definition time_ms : M Z := fun c =>
  (Ret (now_ms env (clock_reads c)),
   {| clock_reads := S (clock_reads c); write_calls := write_calls c |}, []).

(** [time.strftime(format)] *)
Definition time_strftime (format : string) : M string :=
  ret (strftime env format).

(** [self.wfile.write(data)] *)
Definition wfile_write (data : chunk) : M unit := fun c =>
  let c' := {| clock_reads := clock_reads c; write_calls := S (write_calls c) |} in
  match write_outcome env (write_calls c) with
  | None => (Ret tt, c', [Wrote data])
  | Some e => (Raise (OSError e), c', [WriteFailed data e])
  end.

(** [self.wfile.flush()]; the handler's [wfile] is unbuffered. *)
Definition wfile_flush : M unit := emit Flushed.

(** [time.sleep(secs)] *)
Definition time_sleep (secs : float) : M unit :=
  match sleep_error secs with
  | None => emit (Slept secs)
  | Some e => raise e
  end.

Definition print (text : string) (arg : option exn) : M unit :=
  emit (Printed text arg).

Definition send_header (name value : string) : M unit :=
  emit (SendHeader name value).

(** [self.end_headers()]; the write that flushes the header buffer is
    taken to go through. *)
Definition end_headers : M unit := emit EndHeaders.

Definition access_format : string := dquote +:+ "%s" +:+ dquote +:+ " %s %s".
Definition log_time_format : string := "%Y-%m-%d %H:%M:%S".

(** [SSEHandler.log_message(format, *args)] *)
Definition log_message (format : string) (args : list string) : M unit :=
  let stamp := strftime env log_time_format in
  match str_mod format args with
  | Some text => print ("[" +:+ stamp +:+ "] " +:+ text) None
  | None => raise TypeError
  end.

(** [BaseHTTPRequestHandler.log_request(code)], which calls
    [self.log_message('"%s" %s %s', self.requestline, str(code), '-')]. *)
Definition log_request (self : request) (code : Z) : M unit :=
  log_message access_format [requestline self; str_int code; "-"].

(** [BaseHTTPRequestHandler.send_response(code)]: it logs the request,
    then puts the status line and the [Server] and [Date] headers in the
    header buffer. *)
Definition send_response (self : request) (code : Z) : M unit :=
  log_request self code;;
  emit (SendResponse code);;
  send_header "Server" version_string;;
  send_header "Date" (date_time_string env).

(** [l[0]] *)
Definition item0 {A} (l : list A) : M A :=
  match l with
  | x :: _ => ret x
  | [] => raise IndexError
  end.

(** [float(v)] *)
Definition float_ (v : pyval) : M float :=
  match v with
  | PInt n => ret (float_of_int n)
  | PStr s =>
      match float_of_str s with
      | Some x => ret x
      | None => raise ValueError
      end
  end.

(** [int(v)] *)
Definition int_ (v : pyval) : M Z :=
  match v with
  | PInt n => ret n
  | PStr s =>
      match int_of_str s with
      | Some n => ret n
      | None => raise ValueError
      end
  end.

(** *** [SSEHandler] *)

(** The nested helper [set_cors_headers] of [do_GET]. *)
Definition set_cors_headers : M unit :=
  send_header "Access-Control-Allow-Origin" "*";;
  send_header "Access-Control-Allow-Methods" "GET, OPTIONS";;
  send_header "Access-Control-Allow-Headers" "Cache-Control".

(** The body of [for i, log_entry in enumerate(mock_logs[:count])], from
    index [i] on, over the entries that remain. *)
Fixpoint stream_logs (interval : float) (count : Z) (i : nat)
    (entries : list pydict) : M unit :=
  match entries with
  | [] => ret tt
  | log_entry :: rest =>
      t ← time_ms;
      wfile_write (SSE "log" log_entry (str_int t +:+ "-" +:+ str_nat i));;
      wfile_flush;;
      (if bool_decide (Z.of_nat i < count - 1) then time_sleep interval
       else ret tt);;
      stream_logs interval count (S i) rest
  end.

Definition complete_message : string := "목업 로그 스트림이 완료되었습니다".
Definition iso_format : string := "%Y-%m-%dT%H:%M:%SZ".
Definition server_name : string := "Python Mock Server".

(** The body of the [try] block. *)
Definition stream_body (interval : float) (count : Z) : M unit :=
  stream_logs interval count 0 (py_slice_to mock_logs count);;
  ts ← time_strftime iso_format;
  let complete_data :=
    [("message", JStr complete_message); ("timestamp", JStr ts);
     ("totalLogs", JInt count)] in
  t ← time_ms;
  wfile_write (SSE "complete" complete_data (str_int t +:+ "-complete"));;
  wfile_flush.

(** The two [except] clauses. *)
Definition stream_except (e : exn) : M unit :=
  match e with
  | OSError BrokenPipeError => print "클라이언트 연결이 종료되었습니다" None
  | _ => print "SSE 스트리밍 에러: " (Some e)
  end.

(** [float(query.get('interval', [1000])[0]) / 1000.0] *)
Definition read_interval (q : gmap string (list string)) : M float :=
  v ← item0 (query_get q "interval" [PInt 1000]);
  x ← float_ v;
  mret (float_div x (float_of_int 1000)).

(** [int(query.get('count', [len(mock_logs)])[0])] *)
Definition requested_count (q : gmap string (list string)) : M Z :=
  v ← item0 (query_get q "count" [PInt (Z.of_nat (length mock_logs))]);
  int_ v.

(** [min(int(...), len(mock_logs))] *)
Definition read_count (q : gmap string (list string)) : M Z :=
  n ← requested_count q;
  mret (Z.min n (Z.of_nat (length mock_logs))).

Definition do_GET (req : request) : M unit :=
  if bool_decide (path req = stream_path) then
    send_response req 200;;
    send_header "Content-Type" "text/event-stream";;
    send_header "Cache-Control" "no-cache";;
    send_header "Connection" "keep-alive";;
    set_cors_headers;;
    end_headers;;
    interval ← read_interval (query req);
    count ← read_count (query req);
    try_except (stream_body interval count) stream_except
  else if bool_decide (path req = health_path) then
    send_response req 200;;
    send_header "Content-Type" "application/json";;
    set_cors_headers;;
    end_headers;;
    ts ← time_strftime iso_format;
    let health_data :=
      [("status", JStr "healthy"); ("timestamp", JStr ts);
       ("activeConnections", JInt 0); ("server", JStr server_name)] in
    wfile_write (Body health_data)
  else
    send_response req 404;;
    send_header "Content-Type" "application/json";;
    set_cors_headers;;
    end_headers;;
    let error_data :=
      [("message", JStr ("Cannot GET " +:+ path req));
       ("error", JStr "Not Found"); ("statusCode", JInt 404);
       ("server", JStr server_name)] in
    wfile_write (Body error_data).

Definition do_OPTIONS (self : request) : M unit :=
  send_response self 200;;
  send_header "Access-Control-Allow-Origin" "*";;
  send_header "Access-Control-Allow-Methods" "GET, OPTIONS";;
  send_header "Access-Control-Allow-Headers" "Cache-Control";;
  end_headers.

(** *** Running a handler and reading its trace *)

Definition run {A} (m : M A) : outcome A * list event :=
  let '(r, _, tr) := m start in (r, tr).

Definition result_of {A} (m : M A) : outcome A := (run m).1.
Definition trace_of {A} (m : M A) : list event := (run m).2.

End handler.

Arguments event : clear implicits.

(** ** Reading a trace *)

Section observations.
Context {rt : PyRuntime}.

(** The chunks that reached the client. *)
Definition written (tr : list (event rt)) : list chunk :=
  omap (fun ev => match ev with Wrote c => Some c | _ => None end) tr.

(** The chunks the handler tried to write, delivered or not. *)
Definition attempted (tr : list (event rt)) : list chunk :=
  omap (fun ev =>
          match ev with
          | Wrote c | WriteFailed c _ => Some c
          | _ => None
          end) tr.

(** The arguments of the calls of [time.sleep] that returned. *)
Definition sleeps (tr : list (event rt)) : list float :=
  omap (fun ev => match ev with Slept x => Some x | _ => None end) tr.

Definition is_write_failure (ev : event rt) : bool :=
  match ev with WriteFailed _ _ => true | _ => false end.



End observations.

Definition is_frame (name : string) (c : chunk) : bool :=
  match c with
  | SSE ev _ _ => bool_decide (ev = name)
  | Body _ => false
  end.

Definition log_frames (cs : list chunk) : list chunk :=
  List.filter (is_frame "log") cs.

Definition complete_frames (cs : list chunk) : list chunk :=
  List.filter (is_frame "complete") cs.

Definition frame_id (c : chunk) : option string :=
  match c with
  | SSE _ _ id => Some id
  | Body _ => None
  end.

Definition frame_data (c : chunk) : pydict :=
  match c with
  | SSE _ data _ => data
  | Body data => data
  end.

(** The frames of a stream that ran to its end: one [log] frame per entry,
    the i-th stamped with the i-th clock reading, then the [complete]
    frame carrying [count]. *)
Definition log_frame (env : Env) (i : nat) (entry : pydict) : chunk :=
  SSE "log" entry (str_int (now_ms env i) +:+ "-" +:+ str_nat i).

Definition complete_frame (env : Env) (n : nat) (count : Z) : chunk :=
  SSE "complete"
    [("message", JStr complete_message);
     ("timestamp", JStr (strftime env iso_format));
     ("totalLogs", JInt count)]
    (str_int (now_ms env n) +:+ "-complete").

(** ** Describing traces and requests *)

Section vocabulary.
Context {rt : PyRuntime} (env : Env).

(** The cursor after [n] frames: [n] clock readings, [n] writes. *)
Definition after_frames (n : nat) : cursor :=
  {| clock_reads := n; write_calls := n |}.

(** The line [log_message] prints for a request answered with [code]. *)
Definition access_line_text (req : request) (code : Z) : string :=
  "[" +:+ strftime env log_time_format +:+ "] " +:+
  dquote +:+ requestline req +:+ dquote +:+ " " +:+ str_int code +:+ " -".

Definition access_line (req : request) (code : Z) : event rt :=
  Printed (access_line_text req code) None.

(** What [send_response] leaves in the trace: the access line, the status
    line, and the [Server] and [Date] headers. *)
Definition response_head (req : request) (code : Z) : list (event rt) :=
  [access_line req code;
   SendResponse code;
   SendHeader "Server" version_string;
   SendHeader "Date" (date_time_string env)].

(** The access line, status line and headers of the streaming response. *)
Definition stream_headers (req : request) : list (event rt) :=
  response_head req 200 ++
  [SendHeader "Content-Type" "text/event-stream";
   SendHeader "Cache-Control" "no-cache";
   SendHeader "Connection" "keep-alive";
   SendHeader "Access-Control-Allow-Origin" "*";
   SendHeader "Access-Control-Allow-Methods" "GET, OPTIONS";
   SendHeader "Access-Control-Allow-Headers" "Cache-Control";
   EndHeaders].

(** The trace of the loop from index [i] on when every write and every
    sleep succeeds: frame, flush, and a sleep while [i < count - 1]. *)
Fixpoint paced_logs (interval : float) (count : Z) (i : nat)
    (entries : list pydict) : list (event rt) :=
  match entries with
  | [] => []
  | entry :: rest =>
      Wrote (log_frame env i entry) :: Flushed ::
      (if bool_decide (Z.of_nat i < count - 1) then [Slept interval] else [])
      ++ paced_logs interval count (S i) rest
  end.

(** Frames written one after the other with a sleep between each two and
    none after the last. *)
Fixpoint paced (interval : float) (frames : list chunk) : list (event rt) :=
  match frames with
  | [] => []
  | f :: rest =>
      Wrote f :: Flushed ::
      match rest with
      | [] => []
      | _ :: _ => Slept interval :: paced interval rest
      end
  end.

(** A computation that reads no clock, writes nothing and leaves no
    trace: it only returns or raises. *)
Definition pure {A} (m : M A) : Prop :=
  forall c, m c = (result_of m, c, []).

(** No write was refused in this stretch of the trace. *)
Definition undisturbed (tr : list (event rt)) : Prop :=
  Forall (fun ev => is_write_failure ev = false) tr.

(** How the body of the [try] block can end: it returns, or a sleep
    raises, or a write raises; a refused write is the last event. *)
Inductive body_run : outcome unit -> list (event rt) -> Prop :=
| body_returns tr :
    undisturbed tr -> body_run (Ret tt) tr
| body_sleep_raises e tr :
    undisturbed tr -> body_run (Raise e) tr
| body_write_raises c e tr :
    undisturbed tr -> body_run (Raise (OSError e)) (tr ++ [WriteFailed c e]).





(** The access line, status line and headers of the 404 response. *)
Definition not_found_headers (req : request) : list (event rt) :=
  response_head req 404 ++
  [SendHeader "Content-Type" "application/json";
   SendHeader "Access-Control-Allow-Origin" "*";
   SendHeader "Access-Control-Allow-Methods" "GET, OPTIONS";
   SendHeader "Access-Control-Allow-Headers" "Cache-Control";
   EndHeaders].

Definition not_found_body (p : string) : chunk :=
  Body [("message", JStr ("Cannot GET " +:+ p));
        ("error", JStr "Not Found"); ("statusCode", JInt 404);
        ("server", JStr server_name)].

End vocabulary.

(** Does the string contain a hyphen? *)
Fixpoint has_dash (s : string) : bool :=
  match s with
  | EmptyString => false
  | String c s' => bool_decide (c = "-"%char) || has_dash s'
  end.

(** What follows the last hyphen of an id: the frame's index, or
    [complete]. *)
Fixpoint id_tag (s : string) : string :=
  match s with
  | EmptyString => EmptyString
  | String c s' =>
      if has_dash s' then id_tag s'
      else if bool_decide (c = "-"%char) then s'
      else s
  end.

(** The ids of the frames the handler tried to write, in order. *)
Definition frame_ids {rt : PyRuntime} (tr : list (event rt)) : list string :=
  omap frame_id (attempted tr).



(** ** A reference runtime and environments, for evaluation

    Floats are stood in for by exact rationals; [int] and [float] read
    plain decimal numerals ([12], [-3], [999]) and reject anything else;
    [time.sleep] rejects a negative argument. *)

Definition ref_runtime : PyRuntime := {|
  float := Q;
  float_of_str s := (fun d => inject_Z (Z.of_int d)) <$> NilZero.int_of_string s;
  float_of_int := inject_Z;
  float_div := Qdiv;
  int_of_str s := Z.of_int <$> NilZero.int_of_string s;
  sleep_error x := if bool_decide (Qnum x < 0) then Some ValueError else None;
  version_string := "BaseHTTP/0.6 Python/3.12.3"
|}.

(** Every write succeeds. *)
Definition calm_env : Env := {|
  now_ms n := 1757415600000 + Z.of_nat n;
  strftime format :=
    if bool_decide (format = log_time_format) then "2025-09-09 11:00:00"
    else "2025-09-09T11:00:00Z";
  write_outcome _ := None;
  date_time_string := "Tue, 09 Sep 2025 11:00:00 GMT"
|}.

(** The client goes away after three frames: the fourth write fails. *)
Definition drop_env : Env := {|
  now_ms n := 1757415600000 + Z.of_nat n;
  strftime format :=
    if bool_decide (format = log_time_format) then "2025-09-09 11:00:00"
    else "2025-09-09T11:00:00Z";
  write_outcome n := if bool_decide (n = 3%nat) then Some BrokenPipeError else None;
  date_time_string := "Tue, 09 Sep 2025 11:00:00 GMT"
|}.

(** A clock that stands still. *)
Definition frozen_env : Env := {|
  now_ms _ := 1757415600000;
  strftime format :=
    if bool_decide (format = log_time_format) then "2025-09-09 11:00:00"
    else "2025-09-09T11:00:00Z";
  write_outcome _ := None;
  date_time_string := "Tue, 09 Sep 2025 11:00:00 GMT"
|}.

(** The query string that carries the given parameters, without the
    question mark. *)
Definition query_string (params : list (string * list string)) : string :=
  String.concat "&"
    (mjoin ((fun kv => (fun v => kv.1 +:+ "=" +:+ v) <$> kv.2) <$> params)).

(** The request line of a GET for a path with the given parameters. *)
Definition get_line (p : string) (params : list (string * list string))
    : string :=
  "GET " +:+ p +:+
  match params with
  | [] => ""
  | _ :: _ => "?" +:+ query_string params
  end +:+ " HTTP/1.1".

Definition stream_request (params : list (string * list string)) : request :=
  {| requestline := get_line stream_path params;
     path := stream_path;
     query := list_to_map params |}.

(** The request [GET .../test-task-123?count=-3] over a connection that
    stays open. *)
Definition minus_three : request := stream_request [("count", ["-3"])].

Definition total_logs (c : chunk) : option json :=
  dict_get (frame_data c) "totalLogs".


(** ** Describing responses and runs of the loop *)

Section responses.
Context {rt : PyRuntime} (env : Env).

(** The three headers [set_cors_headers] sends. *)
Definition cors_headers : list (event rt) :=
  [SendHeader "Access-Control-Allow-Origin" "*";
   SendHeader "Access-Control-Allow-Methods" "GET, OPTIONS";
   SendHeader "Access-Control-Allow-Headers" "Cache-Control"].

(** The access line, status line and headers of the health response. *)
Definition health_headers (req : request) : list (event rt) :=
  response_head env req 200
  ++ SendHeader "Content-Type" "application/json"
  :: cors_headers ++ [EndHeaders].

(** The dict [health_data], serialised. *)
Definition health_body : chunk :=
  Body [("status", JStr "healthy");
        ("timestamp", JStr (strftime env iso_format));
        ("activeConnections", JInt 0); ("server", JStr server_name)].

(** The dict [complete_data]. *)
Definition complete_data (count : Z) : pydict :=
  [("message", JStr complete_message);
   ("timestamp", JStr (strftime env iso_format));
   ("totalLogs", JInt count)].

Definition is_send_header (ev : event rt) : bool :=
  match ev with SendHeader _ _ => true | _ => false end.

(** What can happen once the headers are out: writes, flushes, sleeps and
    prints. *)
Definition is_body_event (ev : event rt) : bool :=
  match ev with
  | Wrote _ | WriteFailed _ _ | Flushed | Slept _ | Printed _ _ => true
  | SendResponse _ | SendHeader _ _ | EndHeaders => false
  end.

(** The lines the handler printed. *)
Definition printed (tr : list (event rt)) : list (string * option exn) :=
  omap (fun ev =>
          match ev with Printed text arg => Some (text, arg) | _ => None end) tr.

(** Every delivered write is followed at once by a flush. *)
Fixpoint flushed_at_once (tr : list (event rt)) : bool :=
  match tr with
  | [] => true
  | Wrote _ :: rest =>
      match rest with
      | Flushed :: _ => flushed_at_once rest
      | _ => false
      end
  | _ :: rest => flushed_at_once rest
  end.

(** The ways the loop can run from index [i] over the entries that
    remain, whatever the clock and the socket do: it runs out of entries;
    or the write of a frame is refused; or the frame goes out and the
    sleep raises; or the frame goes out, with or without a sleep, and the
    loop goes on. *)
Inductive loop_run (interval : float) :
    nat -> list pydict -> outcome unit -> list (event rt) -> Prop :=
| loop_done i :
    loop_run interval i [] (Ret tt) []
| loop_write_refused i entry rest t e :
    loop_run interval i (entry :: rest) (Raise (OSError e))
      [WriteFailed (SSE "log" entry (str_int t +:+ "-" +:+ str_nat i)) e]
| loop_sleep_raises i entry rest t e :
    loop_run interval i (entry :: rest) (Raise e)
      [Wrote (SSE "log" entry (str_int t +:+ "-" +:+ str_nat i)); Flushed]
| loop_next i entry rest t nap r tr :
    nap = [] \/ nap = [Slept interval] ->
    loop_run interval (S i) rest r tr ->
    loop_run interval i (entry :: rest) r
      (Wrote (SSE "log" entry (str_int t +:+ "-" +:+ str_nat i))
       :: Flushed :: nap ++ tr).

(** The ways the guarded stream can run: the loop ends and the [complete]
    frame goes out; or the loop ends and the [complete] frame is refused;
    or the loop is cut short.  In the last two an [except] clause prints. *)
Inductive guarded_run (interval : float) (count : Z) :
    list (event rt) -> Prop :=
| run_completed tr t :
    loop_run interval 0 (py_slice_to mock_logs count) (Ret tt) tr ->
    guarded_run interval count
      (tr ++ [Wrote (SSE "complete" (complete_data count)
                       (str_int t +:+ "-complete")); Flushed])
| run_complete_refused tr t e :
    loop_run interval 0 (py_slice_to mock_logs count) (Ret tt) tr ->
    guarded_run interval count
      (tr ++ WriteFailed (SSE "complete" (complete_data count)
                            (str_int t +:+ "-complete")) e
          :: trace_of (stream_except (OSError e)))
| run_cut_short tr e :
    loop_run interval 0 (py_slice_to mock_logs count) (Raise e) tr ->
    guarded_run interval count (tr ++ trace_of (stream_except e)).

End responses.

(** ** The stream when nothing goes wrong *)

Section stream_ok.
Context {rt : PyRuntime} (env : Env).

Hypothesis writes_succeed : forall n, write_outcome env n = None.

Lemma stream_logs_ok interval count entries i :
  sleep_error interval = None \/ count <= 1 ->
  stream_logs env interval count i entries (after_frames i)
  = (Ret tt, after_frames (i + length entries),
     paced_logs env interval count i entries).
Proof.
  intros Hsleep. revert i.
  induction entries as [|entry rest IH]; intros i.
  - cbn. unfold ret, after_frames. by rewrite Nat.add_0_r.
  - cbn [stream_logs paced_logs].
    unfold mbind, M_bind, bind, time_ms, wfile_write, wfile_flush, emit.
    cbn [clock_reads write_calls after_frames].
    rewrite writes_succeed.
    fold (after_frames (S i)).
    assert (Hpace :
      (if bool_decide (Z.of_nat i < count - 1) then time_sleep interval
       else ret tt) (after_frames (S i))
      = (Ret tt, after_frames (S i),
         if bool_decide (Z.of_nat i < count - 1) then [Slept interval] else [])).
    { case_bool_decide as Hlt; [|done].
      unfold time_sleep. destruct Hsleep as [->|Hle]; [done|lia]. }
    rewrite Hpace, (IH (S i)). cbn [length].
    by rewrite Nat.add_succ_r.
Qed.

End stream_ok.

(** ** Reading the query has no effect *)

Section pure.
Context {rt : PyRuntime}.

Lemma pure_ret {A} (a : A) : pure (ret a).
Proof. done. Qed.

Lemma pure_raise {A} (e : exn) : pure (@raise rt A e).
Proof. done. Qed.

Lemma pure_bind {A B} (m : M A) (f : A -> M B) :
  pure m -> (forall a, pure (f a)) -> pure (m ≫= f).
Proof.
  intros Hm Hf c. unfold result_of, run, mbind, M_bind, bind.
  rewrite (Hm c), (Hm start).
  destruct (result_of m) as [a|e]; [|done].
  rewrite (Hf a c), (Hf a start). done.
Qed.

Lemma pure_item0 {A} (l : list A) : pure (item0 l).
Proof. destruct l; [apply pure_raise | apply pure_ret]. Qed.

Lemma pure_float_ v : pure (float_ v).
Proof.
  destruct v as [s|n]; cbn; [|apply pure_ret].
  destruct (float_of_str s); [apply pure_ret | apply pure_raise].
Qed.

Lemma pure_int_ v : pure (int_ v).
Proof.
  destruct v as [s|n]; cbn; [|apply pure_ret].
  destruct (int_of_str s); [apply pure_ret | apply pure_raise].
Qed.

Lemma pure_read_interval q : pure (read_interval q).
Proof.
  apply pure_bind; [apply pure_item0|]. intros v.
  apply pure_bind; [apply pure_float_|]. intros x. apply pure_ret.
Qed.

Lemma pure_requested_count q : pure (requested_count q).
Proof. apply pure_bind; [apply pure_item0 | apply pure_int_]. Qed.

Lemma pure_read_count q : pure (read_count q).
Proof.
  apply pure_bind; [apply pure_requested_count|]. intros n. apply pure_ret.
Qed.

(** [send_response] never fails: the access format takes its three
    arguments. *)
Lemma send_response_run env req code c :
  send_response env req code c = (Ret tt, c, response_head env req code).
Proof. reflexivity. Qed.

(** The clamp of [read_count] in terms of the requested count. *)
Lemma read_count_clamps q :
  result_of (read_count q)
  = match result_of (requested_count q) with
    | Ret n => Ret (Z.min n 12)
    | Raise e => Raise e
    end.
Proof.
  unfold result_of at 1. unfold run, read_count, mbind, M_bind, bind.
  rewrite (pure_requested_count q start).
  by destruct (result_of (requested_count q)).
Qed.

(** What [do_GET] does on the streaming route: the headers go out, then
    the two parameters are read, then the guarded stream runs. *)
Lemma do_GET_stream env req :
  path req = stream_path ->
  run (do_GET env req)
  = match result_of (read_interval (query req)) with
    | Raise e => (Raise e, stream_headers env req)
    | Ret interval =>
        match result_of (read_count (query req)) with
        | Raise e => (Raise e, stream_headers env req)
        | Ret count =>
            let '(r, tr) :=
              run (try_except (stream_body env interval count) stream_except) in
            (r, stream_headers env req ++ tr)
        end
    end.
Proof.
  intros Hpath. unfold do_GET. rewrite bool_decide_eq_true_2 by done.
  unfold run, set_cors_headers, mbind, M_bind, bind.
  rewrite send_response_run.
  cbn -[read_interval read_count try_except response_head].
  rewrite (pure_read_interval (query req) start).
  destruct (result_of (read_interval (query req))) as [interval|e]; [|done].
  rewrite (pure_read_count (query req) start).
  destruct (result_of (read_count (query req))) as [count|e]; [|done].
  destruct (try_except _ _ start) as [[r c] tr]. done.
Qed.

End pure.

(** ** The frames of a stream that runs to its end *)

Section complete_stream.
Context {rt : PyRuntime} (env : Env).

Lemma written_app (tr1 tr2 : list (event rt)) :
  written (tr1 ++ tr2) = written tr1 ++ written tr2.
Proof. apply omap_app. Qed.

Lemma sleeps_app (tr1 tr2 : list (event rt)) :
  sleeps (tr1 ++ tr2) = sleeps tr1 ++ sleeps tr2.
Proof. apply omap_app. Qed.

Lemma written_paced_logs interval count i entries :
  written (paced_logs env interval count i entries)
  = imap (fun j => log_frame env (i + j)) entries.
Proof.
  revert i. induction entries as [|entry rest IH]; intros i; [done|].
  cbn [paced_logs imap]. rewrite Nat.add_0_r.
  change (written (Wrote ?c :: Flushed :: ?l)) with (c :: written l).
  rewrite written_app.
  assert (written (if bool_decide (Z.of_nat i < count - 1)
                   then [Slept interval] else []) = []) as ->
    by by case_bool_decide.
  cbn. f_equal. rewrite IH. apply imap_ext. intros j x _. cbn.
  by rewrite Nat.add_succ_r.
Qed.

Hypothesis writes_succeed : forall n, write_outcome env n = None.

Lemma stream_body_ok interval count :
  sleep_error interval = None \/ count <= 1 ->
  run (try_except (stream_body env interval count) stream_except)
  = (Ret tt,
     paced_logs env interval count 0 (py_slice_to mock_logs count)
     ++ [Wrote (complete_frame env (length (py_slice_to mock_logs count)) count);
         Flushed]).
Proof.
  intros Hsleep.
  unfold run, try_except, stream_body, mbind, M_bind, bind.
  change start with (after_frames 0).
  rewrite (stream_logs_ok env writes_succeed _ _ _ 0 Hsleep).
  unfold time_strftime, ret, time_ms, wfile_write, wfile_flush, emit.
  cbn [clock_reads write_calls after_frames Nat.add].
  rewrite writes_succeed. cbn [app]. done.
Qed.

(** The whole response, given what the two parameters evaluate to. *)
Lemma do_GET_stream_ok req interval n :
  path req = stream_path ->
  result_of (read_interval (query req)) = Ret interval ->
  result_of (requested_count (query req)) = Ret n ->
  sleep_error interval = None \/ n <= 1 ->
  let count := Z.min n 12 in
  let entries := py_slice_to mock_logs count in
  run (do_GET env req)
  = (Ret tt,
     stream_headers env req ++ paced_logs env interval count 0 entries
     ++ [Wrote (complete_frame env (length entries) count); Flushed]).
Proof.
  intros Hpath Hint Hcount Hsleep count entries.
  rewrite (do_GET_stream env req Hpath), Hint, read_count_clamps, Hcount.
  rewrite stream_body_ok; [done|].
  destruct Hsleep as [?|?]; [by left | right; subst count; lia].
Qed.

Lemma do_GET_stream_frames req interval n :
  path req = stream_path ->
  result_of (read_interval (query req)) = Ret interval ->
  result_of (requested_count (query req)) = Ret n ->
  sleep_error interval = None \/ n <= 1 ->
  let count := Z.min n 12 in
  let entries := py_slice_to mock_logs count in
  result_of (do_GET env req) = Ret tt /\
  written (trace_of (do_GET env req))
  = imap (log_frame env) entries ++ [complete_frame env (length entries) count].
Proof.
  intros Hpath Hint Hcount Hsleep count entries.
  unfold result_of, trace_of.
  rewrite (do_GET_stream_ok req interval n) by done.
  split; [done|]. cbn [fst snd].
  rewrite !written_app, written_paced_logs. done.
Qed.

End complete_stream.

(** ** Slices of the catalog *)

Lemma length_mock_logs : length mock_logs = 12%nat.
Proof. reflexivity. Qed.

Lemma py_slice_to_nonneg {A} (l : list A) (stop : Z) :
  0 <= stop -> py_slice_to l stop = take (Z.to_nat stop) l.
Proof. intros H. unfold py_slice_to. by rewrite bool_decide_eq_true_2. Qed.

Lemma py_slice_to_neg {A} (l : list A) (stop : Z) :
  stop < 0 ->
  py_slice_to l stop = take (Z.to_nat (Z.of_nat (length l) + stop)) l.
Proof.
  intros H. unfold py_slice_to. rewrite bool_decide_eq_false_2; [done|lia].
Qed.

Lemma length_take_mock_logs (n : nat) :
  (n <= 12)%nat -> length (take n mock_logs) = n.
Proof. intros H. rewrite length_take, length_mock_logs. lia. Qed.

(** Selecting frames by event name from a finished stream. *)
Lemma filter_all {A} (p : A -> bool) (l : list A) :
  (forall x, x ∈ l -> p x = true) -> List.filter p l = l.
Proof.
  induction l as [|x l IH]; intros H; [done|]. cbn.
  rewrite (H x) by left. f_equal. apply IH. intros y Hy. apply H. by right.
Qed.

Lemma filter_none {A} (p : A -> bool) (l : list A) :
  (forall x, x ∈ l -> p x = false) -> List.filter p l = [].
Proof.
  induction l as [|x l IH]; intros H; [done|]. cbn.
  rewrite (H x) by left. apply IH. intros y Hy. apply H. by right.
Qed.

Lemma log_frames_stream env (l : list pydict) (n : nat) (count : Z) :
  log_frames (imap (log_frame env) l ++ [complete_frame env n count])
  = imap (log_frame env) l.
Proof.
  unfold log_frames. rewrite List.filter_app.
  change (List.filter _ [complete_frame env n count]) with (@nil chunk).
  rewrite app_nil_r. apply filter_all. intros c Hc.
  apply elem_of_lookup_imap in Hc as (i & x & -> & _). done.
Qed.

Lemma complete_frames_stream env (l : list pydict) (n : nat) (count : Z) :
  complete_frames (imap (log_frame env) l ++ [complete_frame env n count])
  = [complete_frame env n count].
Proof.
  unfold complete_frames. rewrite List.filter_app.
  change (List.filter _ [complete_frame env n count])
    with [complete_frame env n count].
  rewrite filter_none; [done|]. intros c Hc.
  apply elem_of_lookup_imap in Hc as (i & x & -> & _). done.
Qed.

(** ** Streams that run to their end *)

(** C1.  For every k with 1 <= k <= 12, a GET to the mock-stream route
    with count = k, over a connection that stays open and with an interval
    [time.sleep] accepts, returns normally after writing exactly k [log]
    frames whose payloads are the first k catalog entries in catalog
    order, followed by exactly one [complete] frame, which is the last
    thing written. *)
Theorem C1_count_k_logs_then_complete
    {rt : PyRuntime} (env : Env) (req : request) (interval : float) (k : Z) :
  path req = stream_path ->
  result_of (requested_count (query req)) = Ret k ->
  1 <= k <= 12 ->
  result_of (read_interval (query req)) = Ret interval ->
  sleep_error interval = None ->
  (forall n, write_outcome env n = None) ->
  let frames := written (trace_of (do_GET env req)) in
  result_of (do_GET env req) = Ret tt /\
  frames = imap (log_frame env) (take (Z.to_nat k) mock_logs)
           ++ [complete_frame env (Z.to_nat k) k] /\
  frame_data <$> log_frames frames = take (Z.to_nat k) mock_logs /\
  length (log_frames frames) = Z.to_nat k /\
  length (complete_frames frames) = 1%nat.
Proof.
  intros Hpath Hcount Hk Hint Hsleep Hw frames.
  destruct (do_GET_stream_frames env Hw req interval k Hpath Hint Hcount)
    as [Hres Hframes]; [by left|].
  replace (Z.min k 12) with k in Hframes by lia.
  rewrite py_slice_to_nonneg in Hframes by lia.
  rewrite length_take_mock_logs in Hframes by lia.
  subst frames. rewrite Hframes, log_frames_stream, complete_frames_stream.
  repeat split; try done.
  - rewrite fmap_imap. change (imap _ ?l) with (imap (fun _ x => x) l).
    clear. generalize (take (Z.to_nat k) mock_logs).
    induction l as [|x l IH]; [done|]. cbn. f_equal. exact IH.
  - rewrite length_imap. apply length_take_mock_logs. lia.
Qed.

Lemma C1_witness :
  written (trace_of (do_GET (rt:=ref_runtime) calm_env
                       (stream_request [("count", ["3"])])))
  = imap (log_frame calm_env) (take 3 mock_logs)
    ++ [complete_frame calm_env 3 3].
Proof.
  refine (proj1 (proj2 (C1_count_k_logs_then_complete (rt:=ref_runtime)
    calm_env (stream_request [("count", ["3"])])
    (float_div (float_of_int 1000) (float_of_int 1000)) 3 _ _ _ _ _ _)));
  [reflexivity | vm_compute; reflexivity | lia | vm_compute; reflexivity
  | reflexivity | reflexivity].
Defined.

(** C6.  For every requested count greater than the catalog length (such
    as count = 999), over a connection that stays open and with an
    interval [time.sleep] accepts, the number of [log] frames emitted is
    exactly the catalog length, 12: the frames are the whole catalog, and
    the completion payload reports 12. *)
Theorem C6_count_above_catalog_is_clamped
    {rt : PyRuntime} (env : Env) (req : request) (interval : float) (n : Z) :
  path req = stream_path ->
  result_of (requested_count (query req)) = Ret n ->
  12 < n ->
  result_of (read_interval (query req)) = Ret interval ->
  sleep_error interval = None ->
  (forall i, write_outcome env i = None) ->
  let frames := written (trace_of (do_GET env req)) in
  length (log_frames frames) = 12%nat /\
  frame_data <$> log_frames frames = mock_logs /\
  frames = imap (log_frame env) mock_logs ++ [complete_frame env 12 12].
Proof.
  intros Hpath Hcount Hn Hint Hsleep Hw frames.
  destruct (do_GET_stream_frames env Hw req interval n Hpath Hint Hcount)
    as [_ Hframes]; [by left|].
  replace (Z.min n 12) with 12 in Hframes by lia.
  change (py_slice_to mock_logs 12) with mock_logs in Hframes.
  change (length mock_logs) with 12%nat in Hframes.
  subst frames. rewrite Hframes, log_frames_stream. done.
Qed.

Lemma C6_witness :
  length (log_frames (written (trace_of
    (do_GET (rt:=ref_runtime) calm_env
       (stream_request [("count", ["999"])]))))) = 12%nat.
Proof.
  refine (proj1 (C6_count_above_catalog_is_clamped (rt:=ref_runtime)
    calm_env (stream_request [("count", ["999"])])
    (float_div (float_of_int 1000) (float_of_int 1000)) 999 _ _ _ _ _ _));
  [reflexivity | vm_compute; reflexivity | lia | vm_compute; reflexivity
  | reflexivity | reflexivity].
Defined.

(** C10.  For every requested count c with -12 < c < 0, over a connection
    that stays open, the handler emits exactly 12 + c [log] frames (the
    catalog without its last |c| entries, by the negative-stop slice) and
    then one [complete] frame whose [totalLogs] field is the negative
    value c. *)
Theorem C10_negative_count_slices_catalog
    {rt : PyRuntime} (env : Env) (req : request) (interval : float) (c : Z) :
  path req = stream_path ->
  result_of (requested_count (query req)) = Ret c ->
  -12 < c < 0 ->
  result_of (read_interval (query req)) = Ret interval ->
  (forall n, write_outcome env n = None) ->
  let frames := written (trace_of (do_GET env req)) in
  let kept := Z.to_nat (12 + c) in
  result_of (do_GET env req) = Ret tt /\
  frames = imap (log_frame env) (take kept mock_logs)
           ++ [complete_frame env kept c] /\
  length (log_frames frames) = kept /\
  take kept mock_logs ++ drop kept mock_logs = mock_logs /\
  length (drop kept mock_logs) = Z.to_nat (- c) /\
  dict_get (frame_data (complete_frame env kept c)) "totalLogs"
  = Some (JInt c).
Proof.
  intros Hpath Hcount Hc Hint Hw frames kept.
  destruct (do_GET_stream_frames env Hw req interval c Hpath Hint Hcount)
    as [Hres Hframes]; [right; lia|].
  replace (Z.min c 12) with c in Hframes by lia.
  rewrite py_slice_to_neg in Hframes by lia.
  change (Z.of_nat (length mock_logs)) with 12 in Hframes.
  fold kept in Hframes.
  rewrite length_take_mock_logs in Hframes by (subst kept; lia).
  subst frames. rewrite Hframes, log_frames_stream, length_imap.
  rewrite length_take_mock_logs by (subst kept; lia).
  rewrite take_drop, length_drop, length_mock_logs.
  repeat split; try done. subst kept. lia.
Qed.

Lemma C10_witness :
  written (trace_of (do_GET (rt:=ref_runtime) calm_env
                       (stream_request [("count", ["-3"])])))
  = imap (log_frame calm_env) (take 9 mock_logs)
    ++ [complete_frame calm_env 9 (-3)].
Proof.
  refine (proj1 (proj2 (C10_negative_count_slices_catalog (rt:=ref_runtime)
    calm_env (stream_request [("count", ["-3"])])
    (float_div (float_of_int 1000) (float_of_int 1000)) (-3) _ _ _ _ _)));
  [reflexivity | vm_compute; reflexivity | lia | vm_compute; reflexivity
  | reflexivity].
Defined.

(** ** Streams that are cut short *)

Section abandoned.
Context {rt : PyRuntime} (env : Env).

Lemma body_run_after tr0 r tr :
  undisturbed tr0 -> body_run r tr -> body_run r (tr0 ++ tr).
Proof.
  intros H0 Hrun. inversion Hrun as [tr' H|e tr' H|c e tr' H]; subst.
  - apply body_returns. by apply Forall_app.
  - apply body_sleep_raises. by apply Forall_app.
  - rewrite app_assoc. apply body_write_raises. by apply Forall_app.
Qed.

Lemma wfile_write_run data c :
  (write_outcome env (write_calls c) = None /\
   exists c', wfile_write env data c = (Ret tt, c', [Wrote data])) \/
  (exists e c', wfile_write env data c
                = (Raise (OSError e), c', [WriteFailed data e])).
Proof.
  unfold wfile_write. destruct (write_outcome env (write_calls c)) as [e|];
    [right|left]; eauto.
Qed.

Lemma stream_logs_run interval count entries i c :
  body_run (stream_logs env interval count i entries c).1.1
           (stream_logs env interval count i entries c).2.
Proof.
  revert i c. induction entries as [|entry rest IH]; intros i c.
  - apply body_returns, Forall_nil_2.
  - cbn [stream_logs]. unfold mbind, M_bind, bind, time_ms.
    set (c1 := {| clock_reads := S (clock_reads c);
                  write_calls := write_calls c |}).
    set (data := SSE "log" entry _).
    destruct (wfile_write_run data c1) as [[_ [c2 ->]]|(e & c2 & ->)].
    2:{ cbn. apply (body_write_raises data e []), Forall_nil_2. }
    unfold wfile_flush, emit.
    destruct (bool_decide (Z.of_nat i < count - 1)).
    + unfold time_sleep. destruct (sleep_error interval) as [e|].
      * cbn. apply body_sleep_raises. by repeat constructor.
      * unfold emit. specialize (IH (S i) c2).
        destruct (stream_logs env interval count (S i) rest c2) as [[r c3] tr].
        cbn in *. apply (body_run_after [_; _; _]); [by repeat constructor|done].
    + unfold ret. specialize (IH (S i) c2).
      destruct (stream_logs env interval count (S i) rest c2) as [[r c3] tr].
      cbn in *. apply (body_run_after [_; _]); [by repeat constructor|done].
Qed.

Lemma stream_body_run interval count c :
  body_run (stream_body env interval count c).1.1
           (stream_body env interval count c).2.
Proof.
  unfold stream_body, mbind, M_bind, bind.
  pose proof (stream_logs_run interval count (py_slice_to mock_logs count) 0 c)
    as Hlogs.
  destruct (stream_logs env interval count 0 _ c) as [[r c1] tr].
  cbn [fst snd] in Hlogs. destruct r as [[]|e]; [|done].
  inversion Hlogs as [tr' Htr| |]; subst.
  unfold time_strftime, ret, time_ms.
  set (c2 := {| clock_reads := S (clock_reads c1);
                write_calls := write_calls c1 |}).
  set (data := SSE "complete" _ _).
  destruct (wfile_write_run data c2) as [[_ [c3 ->]]|(e & c3 & ->)]; cbn.
  - apply body_returns. apply Forall_app. split; [done|by repeat constructor].
  - by apply body_write_raises.
Qed.

(** The guarded stream: its outcome and trace, from how the body ended. *)
Lemma guarded_stream_run interval count :
  let body := stream_body env interval count start in
  run (try_except (stream_body env interval count) stream_except)
  = match body.1.1 with
    | Ret _ => (Ret tt, body.2)
    | Raise e => (Ret tt, body.2 ++ trace_of (stream_except e))
    end.
Proof.
  unfold run, try_except. cbn zeta.
  destruct (stream_body env interval count start) as [[[[]|e] c] tr]; [done|].
  cbn [fst snd]. by destruct e as [[]| | | |].
Qed.

(** In a list with a single refused write, what follows it is fixed. *)
Lemma after_the_failure (tr pre post tail : list (event rt)) c e c' e' :
  undisturbed tr ->
  undisturbed tail ->
  tr ++ WriteFailed c e :: tail = pre ++ WriteFailed c' e' :: post ->
  pre = tr /\ c' = c /\ e' = e /\ post = tail.
Proof.
  intros Htr Htail. revert pre.
  induction tr as [|ev tr IH]; intros pre Heq.
  - destruct pre as [|ev' pre]; cbn in Heq.
    + by simplify_eq.
    + injection Heq as <- Heq. subst tail.
      apply Forall_app in Htail as [_ Hbad].
      by apply Forall_cons in Hbad as [? _].
  - apply Forall_cons in Htr as [Hev Htr].
    destruct pre as [|ev' pre]; cbn in Heq.
    + by simplify_eq.
    + injection Heq as <- Heq.
      destruct (IH Htr pre Heq) as (-> & -> & -> & ->). done.
Qed.

Lemma undisturbed_no_failure (tr pre post : list (event rt)) c e :
  undisturbed tr -> tr <> pre ++ WriteFailed c e :: post.
Proof.
  intros Htr ->. apply Forall_app in Htr as [_ Hbad].
  by apply Forall_cons in Hbad as [? _].
Qed.

End abandoned.

Lemma stream_except_prints {rt : PyRuntime} (e : exn) :
  result_of (stream_except e) = Ret tt /\
  exists text arg, trace_of (stream_except e) = [Printed text arg].
Proof. split; [by destruct e as [[]| | | |]|]. destruct e as [[]| | | |]; eauto. Qed.

Lemma undisturbed_stream_headers {rt : PyRuntime} (env : Env) (req : request) :
  undisturbed (stream_headers env req).
Proof. by repeat constructor. Qed.

(** C8.  If a write to the client fails in the middle of a stream (a
    broken pipe or any other error of the socket), the handler attempts
    no further write for that stream, prints one line locally, and
    returns normally: the error does not leave [do_GET]. *)
Theorem C8_write_failure_abandons_stream
    {rt : PyRuntime} (env : Env) (req : request)
    (pre post : list (event rt)) (c : chunk) (e : oserror) :
  path req = stream_path ->
  trace_of (do_GET env req) = pre ++ WriteFailed c e :: post ->
  attempted post = [] /\
  (exists text arg, post = [Printed text arg]) /\
  post = trace_of (stream_except (OSError e)) /\
  result_of (do_GET env req) = Ret tt.
Proof.
  intros Hpath Htrace.
  change (trace_of (do_GET env req)) with (run (do_GET env req)).2 in Htrace.
  change (result_of (do_GET env req)) with (run (do_GET env req)).1.
  rewrite (do_GET_stream env req Hpath) in *.
  destruct (result_of (read_interval (query req))) as [interval|e0].
  2:{ by destruct (undisturbed_no_failure _ pre post c e
                     (undisturbed_stream_headers env req)). }
  destruct (result_of (read_count (query req))) as [count|e0].
  2:{ by destruct (undisturbed_no_failure _ pre post c e
                     (undisturbed_stream_headers env req)). }
  rewrite guarded_stream_run in *.
  pose proof (stream_body_run env interval count start) as Hbody.
  destruct (stream_body env interval count start) as [[r c1] tr].
  cbn [fst snd] in *.
  assert (Hheaders := undisturbed_stream_headers env req).
  inversion Hbody as [tr' Htr|e0 tr' Htr|c0 e0 tr' Htr]; subst; cbn [snd] in Htrace.
  - exfalso. eapply undisturbed_no_failure; [|exact Htrace].
    by apply Forall_app.
  - exfalso. eapply undisturbed_no_failure; [|exact Htrace].
    destruct (stream_except_prints e0) as [_ (text & arg & ->)].
    apply Forall_app. split; [done|]. apply Forall_app. split; [done|].
    by repeat constructor.
  - destruct (stream_except_prints (OSError e0)) as [_ (text & arg & Hprint)].
    rewrite Hprint in *. rewrite <- !app_assoc in Htrace. cbn [app] in Htrace.
    rewrite app_assoc in Htrace.
    apply after_the_failure in Htrace as (_ & _ & -> & ->);
      [|by apply Forall_app|by repeat constructor].
    rewrite Hprint. cbn [fst]. eauto 10.
Qed.

Lemma C8_witness :
  let tr := trace_of (do_GET (rt:=ref_runtime) drop_env (stream_request [])) in
  tr = take 20 tr
       ++ WriteFailed (log_frame drop_env 3 (default [] (mock_logs !! 3%nat)))
            BrokenPipeError
       :: drop 21 tr /\
  length (written tr) = 3%nat /\
  attempted (drop 21 tr) = [] /\
  result_of (do_GET (rt:=ref_runtime) drop_env (stream_request [])) = Ret tt.
Proof.
  intros tr.
  assert (Hcut : tr = take 20 tr
       ++ WriteFailed (log_frame drop_env 3 (default [] (mock_logs !! 3%nat)))
            BrokenPipeError
       :: drop 21 tr) by (vm_compute; reflexivity).
  pose proof (C8_write_failure_abandons_stream (rt:=ref_runtime) drop_env
                (stream_request []) _ _ _ _ eq_refl Hcut) as (Hpost & _ & _ & Hres).
  split; [exact Hcut|]. split; [vm_compute; reflexivity|].
  split; [exact Hpost | exact Hres].
Defined.

(** ** Frame ids *)

Lemma has_dash_app (a b : string) :
  has_dash (a +:+ b) = has_dash a || has_dash b.
Proof.
  induction a as [|c a IH]; [done|].
  change (String c a +:+ b) with (String c (a +:+ b)).
  cbn [has_dash]. by rewrite IH, orb_assoc.
Qed.

Lemma id_tag_after_dash (a d : string) :
  has_dash d = false -> id_tag (a +:+ "-" +:+ d) = d.
Proof.
  intros Hd. induction a as [|c a IH].
  - change ("" +:+ "-" +:+ d) with (String "-" d). cbn. by rewrite Hd.
  - change (String c a +:+ "-" +:+ d) with (String c (a +:+ "-" +:+ d)).
    cbn [id_tag].
    replace (has_dash (a +:+ "-" +:+ d)) with true; [exact IH|].
    rewrite has_dash_app. change ("-" +:+ d) with (String "-" d).
    cbn. by rewrite orb_true_r.
Qed.

Lemma has_dash_string_of_uint (d : Decimal.uint) :
  has_dash (NilEmpty.string_of_uint d) = false.
Proof. induction d; cbn; done. Qed.

Lemma has_dash_str_nat (n : nat) : has_dash (str_nat n) = false.
Proof. apply has_dash_string_of_uint. Qed.

Global Instance str_nat_inj : Inj (=) (=) str_nat.
Proof.
  intros n m Heq. apply DecimalNat.Unsigned.to_uint_inj.
  apply (f_equal NilEmpty.uint_of_string) in Heq.
  unfold str_nat in Heq. rewrite !NilEmpty.usu in Heq. by simplify_eq.
Qed.

Lemma str_nat_not_complete (n : nat) : str_nat n <> "complete".
Proof. unfold str_nat. by destruct (Nat.to_uint n). Qed.

Lemma id_tag_log_id (t : Z) (i : nat) :
  id_tag (str_int t +:+ "-" +:+ str_nat i) = str_nat i.
Proof. apply id_tag_after_dash, has_dash_str_nat. Qed.

Lemma id_tag_complete_id (t : Z) :
  id_tag (str_int t +:+ "-complete") = "complete".
Proof. by apply (id_tag_after_dash (str_int t) "complete"). Qed.

(** Index tags followed or not by [complete] never repeat. *)
Lemma NoDup_index_tags (i m : nat) (last : list string) :
  last = [] \/ last = ["complete"] ->
  NoDup ((str_nat <$> seq i m) ++ last).
Proof.
  intros Hlast. apply NoDup_app. split_and!.
  - apply (NoDup_fmap_2 _), NoDup_seq.
  - intros tag Htag Hin. apply list_elem_of_fmap in Htag as (j & -> & _).
    destruct Hlast as [->| ->].
    + by apply elem_of_nil in Hin.
    + apply list_elem_of_singleton in Hin. by apply str_nat_not_complete in Hin.
  - destruct Hlast as [->| ->]; [apply NoDup_nil_2 | apply NoDup_singleton].
Qed.

Section ids.
Context {rt : PyRuntime} (env : Env).

Lemma frame_ids_app (tr1 tr2 : list (event rt)) :
  frame_ids (tr1 ++ tr2) = frame_ids tr1 ++ frame_ids tr2.
Proof. unfold frame_ids, attempted. by rewrite !omap_app. Qed.

(** The loop stamps the frames it tries to write with consecutive
    indices, whatever the clock says and wherever it stops. *)
Lemma stream_logs_tags interval count entries i c :
  exists m,
    id_tag <$> frame_ids (stream_logs env interval count i entries c).2
    = str_nat <$> seq i m.
Proof.
  revert i c. induction entries as [|entry rest IH]; intros i c.
  - by exists 0%nat.
  - cbn [stream_logs]. unfold mbind, M_bind, bind, time_ms.
    set (c1 := {| clock_reads := S (clock_reads c);
                  write_calls := write_calls c |}).
    destruct (wfile_write_run env
                (SSE "log" entry
                   (str_int (now_ms env (clock_reads c)) +:+ "-" +:+ str_nat i))
                c1) as [[_ [c2 ->]]|(e & c2 & ->)].
    2:{ exists 1%nat. cbn. by rewrite id_tag_log_id. }
    unfold wfile_flush, emit.
    assert (Hstep : forall tr,
      id_tag <$> frame_ids tr = str_nat <$> seq (S i) (length (frame_ids tr)) ->
      id_tag <$> frame_ids
        (Wrote (SSE "log" entry
                  (str_int (now_ms env (clock_reads c)) +:+ "-" +:+ str_nat i))
         :: tr)
      = str_nat <$> seq i (S (length (frame_ids tr)))).
    { intros tr Htr. cbn. rewrite id_tag_log_id. f_equal. exact Htr. }
    destruct (IH (S i) c2) as [m Hm].
    assert (Hlen : forall tr, id_tag <$> frame_ids tr = str_nat <$> seq (S i) m ->
                   length (frame_ids tr) = m).
    { intros tr Htr. apply (f_equal length) in Htr.
      by rewrite !length_fmap, length_seq in Htr. }
    destruct (bool_decide (Z.of_nat i < count - 1)).
    + unfold time_sleep. destruct (sleep_error interval) as [e|].
      * exists 1%nat. cbn. by rewrite id_tag_log_id.
      * unfold emit.
        destruct (stream_logs env interval count (S i) rest c2) as [[r c3] tr].
        cbn [fst snd app] in *. exists (S m).
        rewrite <- (Hlen _ Hm). apply (Hstep (Flushed :: Slept interval :: tr)).
        change (frame_ids (Flushed :: Slept interval :: tr)) with (frame_ids tr).
        by rewrite (Hlen _ Hm).
    + unfold ret.
      destruct (stream_logs env interval count (S i) rest c2) as [[r c3] tr].
      cbn [fst snd app] in *. exists (S m).
      rewrite <- (Hlen _ Hm). apply (Hstep (Flushed :: tr)).
      change (frame_ids (Flushed :: tr)) with (frame_ids tr).
      by rewrite (Hlen _ Hm).
Qed.

Lemma stream_body_tags interval count c :
  exists m last,
    (last = [] \/ last = ["complete"]) /\
    id_tag <$> frame_ids (stream_body env interval count c).2
    = (str_nat <$> seq 0 m) ++ last.
Proof.
  unfold stream_body, mbind, M_bind, bind.
  destruct (stream_logs_tags interval count (py_slice_to mock_logs count) 0 c)
    as [m Hm].
  destruct (stream_logs env interval count 0 _ c) as [[r c1] tr].
  cbn [snd] in Hm. exists m. destruct r as [[]|e].
  2:{ exists []. split; [by left|]. cbn [snd]. by rewrite app_nil_r. }
  unfold time_strftime, ret, time_ms.
  set (c2 := {| clock_reads := S (clock_reads c1);
                write_calls := write_calls c1 |}).
  exists ["complete"]. split; [by right|].
  destruct (wfile_write_run env
              (SSE "complete"
                 [("message", JStr complete_message);
                  ("timestamp", JStr (strftime env iso_format));
                  ("totalLogs", JInt count)]
                 (str_int (now_ms env (clock_reads c1)) +:+ "-complete"))
              c2) as [[_ [c3 ->]]|(e & c3 & ->)];
    unfold wfile_flush, emit; cbn [fst snd app];
    rewrite frame_ids_app, fmap_app, Hm; cbn;
    by rewrite id_tag_complete_id.
Qed.

Lemma NoDup_stream_body_ids interval count c :
  NoDup (frame_ids (stream_body env interval count c).2).
Proof.
  destruct (stream_body_tags interval count c) as (m & last & Hlast & Htags).
  apply (NoDup_fmap_1 id_tag). rewrite Htags. by apply NoDup_index_tags.
Qed.

End ids.

Lemma written_ids_sublist {rt : PyRuntime} (tr : list (event rt)) :
  omap frame_id (written tr) `sublist_of` frame_ids tr.
Proof.
  induction tr as [|ev tr IH]; [constructor|].
  destruct ev as [code|name value| |c|c e| |secs|text arg]; try exact IH.
  - destruct c as [name data id|data]; [|exact IH].
    by apply sublist_skip.
  - destruct c as [name data id|data]; [|exact IH].
    by apply sublist_cons.
Qed.

(** The other two routes write one JSON body and no frame. *)
Lemma do_GET_elsewhere_ids {rt : PyRuntime} (env : Env) (req : request) :
  path req <> stream_path -> frame_ids (trace_of (do_GET env req)) = [].
Proof.
  intros Hpath. unfold trace_of, run, do_GET.
  rewrite bool_decide_eq_false_2 by done.
  destruct (bool_decide (path req = health_path));
    unfold set_cors_headers, mbind, M_bind, bind, time_strftime, wfile_write;
    rewrite send_response_run; cbn -[response_head];
    by destruct (write_outcome env 0).
Qed.

(** C7.  Within a single stream, the id strings of all frames written
    (the [log] frames and the [complete] frame) are pairwise distinct, for
    every sequence of clock values observed during the stream; the same
    holds of the frames whose write was refused. *)
Theorem C7_frame_ids_pairwise_distinct
    {rt : PyRuntime} (env : Env) (req : request) :
  NoDup (omap frame_id (written (trace_of (do_GET env req)))) /\
  NoDup (frame_ids (trace_of (do_GET env req))).
Proof.
  assert (Hall : NoDup (frame_ids (trace_of (do_GET env req)))).
  { destruct (decide (path req = stream_path)) as [Hpath|Hpath].
    2:{ rewrite do_GET_elsewhere_ids by done. apply NoDup_nil_2. }
    unfold trace_of. rewrite (do_GET_stream env req Hpath).
    destruct (result_of (read_interval (query req))) as [interval|e];
      [|apply NoDup_nil_2].
    destruct (result_of (read_count (query req))) as [count|e];
      [|apply NoDup_nil_2].
    rewrite guarded_stream_run.
    pose proof (NoDup_stream_body_ids env interval count start) as Hbody.
    destruct (stream_body env interval count start) as [[[[]|e] c] tr];
      cbn [fst snd] in *.
    - by rewrite frame_ids_app.
    - destruct (stream_except_prints e) as [_ (text & arg & ->)].
      rewrite !frame_ids_app. cbn. by rewrite app_nil_r. }
  split; [|exact Hall].
  eapply sublist_NoDup; [exact Hall|apply written_ids_sublist].
Qed.

(** With a clock that stands still the ids differ by their index alone. *)
Example frozen_clock_ids :
  frame_ids (trace_of (do_GET (rt:=ref_runtime) frozen_env
                         (stream_request [("count", ["3"])])))
  = ["1757415600000-0"; "1757415600000-1"; "1757415600000-2";
     "1757415600000-complete"].
Proof. vm_compute. reflexivity. Qed.

(** ** Malformed parameters *)

Section malformed.
Context {rt : PyRuntime}.




End malformed.




(** ** Routing *)

Section routing.
Context {rt : PyRuntime}.





End routing.




(** ** A count below zero *)

(** C3, at [count=-3].  The requested count is below zero, yet nine [log]
    frames are written before the [complete] frame, where the claim has
    none. *)
Lemma C3_count_minus_three_emits_nine_logs :
  let frames := written (trace_of (do_GET (rt:=ref_runtime) calm_env minus_three)) in
  result_of (requested_count (rt:=ref_runtime) (query minus_three)) = Ret (-3) /\
  length (log_frames frames) = 9%nat /\
  frame_data <$> log_frames frames = take 9 mock_logs /\
  length (complete_frames frames) = 1%nat.
Proof. vm_compute. repeat split. Qed.

(** C2, at [count=-3].  The completion payload reports [totalLogs = -3]
    for a stream in which nine [log] frames were emitted. *)
Lemma C2_count_minus_three_total_logs_mismatch :
  let frames := written (trace_of (do_GET (rt:=ref_runtime) calm_env minus_three)) in
  total_logs <$> complete_frames frames = [Some (JInt (-3))] /\
  length (log_frames frames) = 9%nat /\
  Some (JInt (Z.of_nat (length (log_frames frames)))) <> Some (JInt (-3)).
Proof. vm_compute. repeat split. discriminate. Qed.

(** C9, at [count=-3].  Nine [log] frames are written, and the handler
    never sleeps between them: [i < count - 1] is false at every index. *)
Lemma C9_count_minus_three_never_sleeps :
  let tr := trace_of (do_GET (rt:=ref_runtime) calm_env minus_three) in
  length (log_frames (written tr)) = 9%nat /\
  sleeps tr = [] /\
  result_of (read_interval (rt:=ref_runtime) (query minus_three))
  = Ret (float_div (float_of_int 1000) (float_of_int 1000)).
Proof. vm_compute. repeat split. Qed.

(** ** A count of zero or more *)

Section counted.
Context {rt : PyRuntime} (env : Env).

Lemma paced_logs_cons interval count i entry rest :
  paced_logs env interval count i (entry :: rest)
  = Wrote (log_frame env i entry) :: Flushed ::
    (if bool_decide (Z.of_nat i < count - 1) then [Slept interval] else [])
    ++ paced_logs env interval count (S i) rest.
Proof. reflexivity. Qed.

Lemma paced_cons interval f f' rest :
  paced interval (f :: f' :: rest)
  = Wrote f :: Flushed :: Slept interval :: paced interval (f' :: rest).
Proof. reflexivity. Qed.

Lemma imap_log_frame_cons i entry rest :
  imap (fun j => log_frame env (i + j)) (entry :: rest)
  = log_frame env i entry :: imap (fun j => log_frame env (S i + j)) rest.
Proof.
  cbn [imap]. rewrite Nat.add_0_r. f_equal. apply imap_ext.
  intros j x _. cbn. by rewrite Nat.add_succ_r.
Qed.

Lemma paced_logs_exact interval entries i :
  paced_logs env interval (Z.of_nat (i + length entries)) i entries
  = paced interval (imap (fun j => log_frame env (i + j)) entries).
Proof.
  revert i. induction entries as [|entry rest IH]; intros i; [done|].
  rewrite paced_logs_cons, imap_log_frame_cons.
  destruct rest as [|entry' rest].
  - rewrite bool_decide_eq_false_2 by (cbn [length]; lia). done.
  - rewrite bool_decide_eq_true_2 by (cbn [length]; lia).
    replace (i + length (entry :: entry' :: rest))%nat
      with (S i + length (entry' :: rest))%nat by (cbn [length]; lia).
    rewrite (IH (S i)), imap_log_frame_cons. by rewrite paced_cons.
Qed.

Lemma sleeps_paced interval frames :
  sleeps (paced interval frames) = replicate (length frames - 1) interval.
Proof.
  induction frames as [|f rest IH]; [done|].
  destruct rest as [|f' rest]; [done|].
  change (sleeps (paced interval (f :: f' :: rest)))
    with (interval :: sleeps (paced interval (f' :: rest))).
  rewrite IH. cbn [length]. by rewrite !Nat.sub_succ, Nat.sub_0_r.
Qed.

Hypothesis writes_succeed : forall n, write_outcome env n = None.

(** For a requested count of at least one, the stream is: frame, flush,
    sleep, ..., frame, flush, and the [complete] frame right after. *)
Lemma do_GET_paced req interval n :
  path req = stream_path ->
  result_of (read_interval (query req)) = Ret interval ->
  result_of (requested_count (query req)) = Ret n ->
  sleep_error interval = None ->
  1 <= n ->
  let k := Z.to_nat (Z.min n 12) in
  trace_of (do_GET env req)
  = stream_headers env req
    ++ paced interval (imap (log_frame env) (take k mock_logs))
    ++ [Wrote (complete_frame env k (Z.min n 12)); Flushed] /\
  sleeps (trace_of (do_GET env req)) = replicate (k - 1) interval.
Proof.
  intros Hpath Hint Hcount Hsleep Hn k.
  assert (Htrace : trace_of (do_GET env req)
    = stream_headers env req
      ++ paced interval (imap (log_frame env) (take k mock_logs))
      ++ [Wrote (complete_frame env k (Z.min n 12)); Flushed]).
  { unfold trace_of.
    rewrite (do_GET_stream_ok env writes_succeed req interval n)
      by (done || by left).
    cbn [snd]. rewrite py_slice_to_nonneg by lia. fold k.
    rewrite length_take_mock_logs by lia. do 2 f_equal.
    replace (Z.min n 12) with (Z.of_nat (0 + length (take k mock_logs))).
    - apply paced_logs_exact.
    - rewrite length_take_mock_logs by lia. lia. }
  split; [exact Htrace|]. rewrite Htrace, !sleeps_app, sleeps_paced.
  rewrite length_imap, length_take_mock_logs by lia.
  cbn. by rewrite app_nil_r.
Qed.

(** For a requested count of zero or more, [totalLogs] is the number of
    [log] frames emitted. *)
Lemma total_logs_of_nonneg_count req interval n :
  path req = stream_path ->
  result_of (read_interval (query req)) = Ret interval ->
  result_of (requested_count (query req)) = Ret n ->
  sleep_error interval = None ->
  0 <= n ->
  let frames := written (trace_of (do_GET env req)) in
  total_logs <$> complete_frames frames
  = [Some (JInt (Z.of_nat (length (log_frames frames))))].
Proof.
  intros Hpath Hint Hcount Hsleep Hn frames.
  destruct (do_GET_stream_frames env writes_succeed req interval n
              Hpath Hint Hcount) as [_ Hframes]; [by left|].
  subst frames. rewrite Hframes, log_frames_stream, complete_frames_stream.
  rewrite length_imap, py_slice_to_nonneg by lia.
  rewrite length_take_mock_logs by lia. cbn. do 3 f_equal. lia.
Qed.

(** For a requested count of zero, or of minus twelve or less, the slice is
    empty: the [complete] frame is the only frame. *)
Lemma no_logs_of_empty_slice req interval n :
  path req = stream_path ->
  result_of (read_interval (query req)) = Ret interval ->
  result_of (requested_count (query req)) = Ret n ->
  n = 0 \/ n <= -12 ->
  written (trace_of (do_GET env req)) = [complete_frame env 0 n].
Proof.
  intros Hpath Hint Hcount Hn.
  destruct (do_GET_stream_frames env writes_succeed req interval n
              Hpath Hint Hcount) as [_ Hframes]; [right; lia|].
  rewrite Hframes. replace (Z.min n 12) with n by lia.
  assert (py_slice_to mock_logs n = []) as ->; [|done].
  destruct Hn as [->|Hn]; [done|].
  rewrite py_slice_to_neg by lia. rewrite length_mock_logs.
  replace (Z.to_nat (Z.of_nat 12 + n)) with 0%nat by lia. done.
Qed.

End counted.

(** ** Every run of the stream *)

Section every_run.
Context {rt : PyRuntime} (env : Env).

Lemma stream_logs_loop_run interval count entries i c :
  loop_run interval i entries
    (stream_logs env interval count i entries c).1.1
    (stream_logs env interval count i entries c).2.
Proof.
  revert i c. induction entries as [|entry rest IH]; intros i c.
  - apply loop_done.
  - cbn [stream_logs]. unfold mbind, M_bind, bind, time_ms.
    set (c1 := {| clock_reads := S (clock_reads c);
                  write_calls := write_calls c |}).
    destruct (wfile_write_run env
                (SSE "log" entry
                   (str_int (now_ms env (clock_reads c)) +:+ "-" +:+ str_nat i))
                c1) as [[_ [c2 ->]]|(e & c2 & ->)].
    2:{ cbn. apply loop_write_refused. }
    unfold wfile_flush, emit.
    destruct (bool_decide (Z.of_nat i < count - 1)).
    + unfold time_sleep. destruct (sleep_error interval) as [e|].
      * cbn. apply loop_sleep_raises.
      * unfold emit. specialize (IH (S i) c2).
        destruct (stream_logs env interval count (S i) rest c2) as [[r c3] tr].
        cbn in *. apply (loop_next interval i entry rest _ [Slept interval]);
          [by right|done].
    + unfold ret. specialize (IH (S i) c2).
      destruct (stream_logs env interval count (S i) rest c2) as [[r c3] tr].
      cbn in *. apply (loop_next interval i entry rest _ []); [by left|done].
Qed.

Lemma stream_except_at (e : exn) (c : cursor) :
  stream_except e c = (Ret tt, c, trace_of (stream_except e)).
Proof. by destruct e as [[]| | | |]. Qed.

Lemma guarded_stream_guarded_run interval count :
  exists tr,
    run (try_except (stream_body env interval count) stream_except)
    = (Ret tt, tr) /\
    guarded_run env interval count tr.
Proof.
  unfold run, try_except, stream_body, mbind, M_bind, bind.
  pose proof (stream_logs_loop_run interval count
                (py_slice_to mock_logs count) 0 start) as Hloop.
  destruct (stream_logs env interval count 0 _ start) as [[r c1] tr].
  cbn [fst snd] in Hloop. destruct r as [[]|e].
  - unfold time_strftime, ret, time_ms.
    set (c2 := {| clock_reads := S (clock_reads c1);
                  write_calls := write_calls c1 |}).
    destruct (wfile_write_run env
                (SSE "complete"
                   [("message", JStr complete_message);
                    ("timestamp", JStr (strftime env iso_format));
                    ("totalLogs", JInt count)]
                   (str_int (now_ms env (clock_reads c1)) +:+ "-complete"))
                c2) as [[_ [c3 ->]]|(e & c3 & ->)].
    + unfold wfile_flush, emit. cbn [app].
      eexists. split; [reflexivity|]. by apply run_completed.
    + cbn [app]. rewrite (stream_except_at (OSError e) c3).
      eexists. split; [reflexivity|]. rewrite <- app_assoc.
      by apply (run_complete_refused env interval count tr _ e).
  - rewrite (stream_except_at e c1).
    eexists. split; [reflexivity|]. by apply run_cut_short.
Qed.

(** On the streaming route either a parameter cannot be read, and the
    exception leaves the handler after the headers, or the guarded stream
    runs and the handler returns. *)
Lemma do_GET_stream_cases req :
  path req = stream_path ->
  (exists e, run (do_GET env req) = (Raise e, stream_headers env req) /\
             (result_of (read_interval (query req)) = Raise e \/
              result_of (read_count (query req)) = Raise e)) \/
  (exists interval count tr,
     result_of (read_interval (query req)) = Ret interval /\
     result_of (read_count (query req)) = Ret count /\
     run (do_GET env req) = (Ret tt, stream_headers env req ++ tr) /\
     guarded_run env interval count tr).
Proof.
  intros Hpath. rewrite (do_GET_stream env req Hpath).
  destruct (result_of (read_interval (query req))) as [interval|e];
    [|left; eauto].
  destruct (result_of (read_count (query req))) as [count|e];
    [|left; eauto].
  destruct (guarded_stream_guarded_run interval count) as (tr & -> & Hrun).
  right. by exists interval, count, tr.
Qed.

End every_run.

Section run_facts.
Context {rt : PyRuntime}.

Lemma printed_app (tr1 tr2 : list (event rt)) :
  printed (tr1 ++ tr2) = printed tr1 ++ printed tr2.
Proof. apply omap_app. Qed.

(** The access line is the one line printed while the headers of the
    stream go out. *)
Lemma printed_stream_headers env req :
  printed (stream_headers env req) = [(access_line_text env req 200, None)].
Proof. reflexivity. Qed.

Lemma log_frame_not_complete (c : chunk) :
  is_frame "log" c = true -> is_frame "complete" c = false.
Proof.
  destruct c as [name data id|data]; [|done]. cbn.
  intros ->%bool_decide_eq_true. done.
Qed.

Lemma loop_run_body_events interval i entries r (tr : list (event rt)) :
  loop_run interval i entries r tr ->
  Forall (fun ev => is_body_event ev = true) tr.
Proof.
  induction 1 as [i|i entry rest t e|i entry rest t e
                 |i entry rest t nap r tr Hnap _ IH].
  - constructor.
  - by repeat constructor.
  - by repeat constructor.
  - do 2 (constructor; [done|]). apply Forall_app. split; [|done].
    destruct Hnap as [->| ->]; by repeat constructor.
Qed.

(** A run of the loop never ends on a write that is not flushed. *)
Lemma loop_run_flushed interval i entries r (tr tail : list (event rt)) :
  loop_run interval i entries r tr ->
  flushed_at_once (tr ++ tail) = flushed_at_once tail.
Proof.
  induction 1 as [i|i entry rest t e|i entry rest t e
                 |i entry rest t nap r tr Hnap _ IH]; try done.
  destruct Hnap as [->| ->]; exact IH.
Qed.

(** What a run of the loop delivers: [log] frames for a prefix of the
    entries, in order; for all of them when the loop returns.  It prints
    nothing. *)
Lemma loop_run_written interval i entries r (tr : list (event rt)) :
  loop_run interval i entries r tr ->
  frame_data <$> written tr `prefix_of` entries /\
  Forall (fun c => is_frame "log" c = true) (written tr) /\
  (r = Ret tt -> frame_data <$> written tr = entries) /\
  printed tr = [].
Proof.
  induction 1 as [i|i entry rest t e|i entry rest t e
                 |i entry rest t nap r tr Hnap _ IH].
  - by split_and!.
  - split_and!; try done. apply prefix_nil.
  - split_and!; try done; [apply prefix_cons, prefix_nil|by repeat constructor].
  - destruct IH as (Hpre & Hlog & Hall & Hprint).
    assert (Hw : written (Wrote (SSE "log" entry
                            (str_int t +:+ "-" +:+ str_nat i))
                          :: Flushed :: nap ++ tr)
                 = SSE "log" entry (str_int t +:+ "-" +:+ str_nat i)
                   :: written tr).
    { change (written (Wrote ?c :: Flushed :: ?l)) with (c :: written l).
      rewrite written_app. by destruct Hnap as [->| ->]. }
    assert (Hp : printed (Wrote (SSE "log" entry
                            (str_int t +:+ "-" +:+ str_nat i))
                          :: Flushed :: nap ++ tr) = printed tr).
    { change (printed (Wrote ?c :: Flushed :: ?l)) with (printed l).
      rewrite printed_app. by destruct Hnap as [->| ->]. }
    rewrite Hw, Hp. split_and!; try done.
    + by apply prefix_cons.
    + by constructor.
    + intros Hr. cbn. f_equal. by apply Hall.
Qed.

Lemma stream_except_effects (e : exn) :
  written (trace_of (stream_except (rt:=rt) e)) = [] /\
  (exists line, printed (trace_of (stream_except (rt:=rt) e)) = [line]) /\
  Forall (fun ev => is_body_event ev = true) (trace_of (stream_except (rt:=rt) e)) /\
  flushed_at_once (trace_of (stream_except (rt:=rt) e)) = true.
Proof. destruct e as [[]| | | |]; split_and!; eauto; by repeat constructor. Qed.

Lemma log_frames_all (cs : list chunk) :
  Forall (fun c => is_frame "log" c = true) cs ->
  log_frames cs = cs /\ complete_frames cs = [].
Proof.
  intros Hlog. rewrite Forall_forall in Hlog. split.
  - by apply filter_all.
  - apply filter_none. intros c Hc. by apply log_frame_not_complete, Hlog.
Qed.

(** How a guarded stream ends: with the [complete] frame delivered last,
    after a [log] frame for every entry of the slice, and nothing
    printed; or without a [complete] frame, after [log] frames for a
    prefix of the slice, and one line printed. *)
Lemma guarded_run_ends env interval count (tr : list (event rt)) :
  guarded_run env interval count tr ->
  let frames := written tr in
  (exists c, frames = log_frames frames ++ [c] /\
             complete_frames frames = [c] /\
             frame_data c = complete_data env count /\
             frame_data <$> log_frames frames = py_slice_to mock_logs count /\
             printed tr = []) \/
  (frames = log_frames frames /\
   complete_frames frames = [] /\
   frame_data <$> log_frames frames `prefix_of` py_slice_to mock_logs count /\
   exists line, printed tr = [line]).
Proof.
  intros Hrun frames. subst frames.
  destruct Hrun as [tr t Hloop|tr t e Hloop|tr e Hloop];
    destruct (loop_run_written _ _ _ _ _ Hloop) as (Hpre & Hlog & Hall & Hprint);
    destruct (log_frames_all _ Hlog) as [Hlogs Hnone].
  - left. eexists. rewrite written_app, printed_app, Hprint.
    cbn [written omap app printed].
    unfold log_frames, complete_frames in *. rewrite !List.filter_app.
    rewrite Hlogs, Hnone. cbn. rewrite app_nil_r.
    split_and!; try done. by apply Hall.
  - right. destruct (stream_except_effects (OSError e)) as (Hw & [line Hp] & _).
    change (tr ++ ?ev :: ?l) with (tr ++ [ev] ++ l).
    rewrite !written_app, !printed_app, Hw, Hp, Hprint. cbn [written omap app printed].
    rewrite app_nil_r, Hlogs. split_and!; eauto.
  - right. destruct (stream_except_effects e) as (Hw & [line Hp] & _).
    rewrite !written_app, !printed_app, Hw, Hp, Hprint.
    rewrite app_nil_r, Hlogs. split_and!; eauto.
Qed.

Lemma guarded_run_body_events env interval count (tr : list (event rt)) :
  guarded_run env interval count tr ->
  Forall (fun ev => is_body_event ev = true) tr.
Proof.
  intros [tr' t Hloop|tr' t e Hloop|tr' e Hloop];
    pose proof (loop_run_body_events _ _ _ _ _ Hloop) as Hbody.
  - apply Forall_app. split; [done|by repeat constructor].
  - apply Forall_app. split; [done|]. constructor; [done|].
    apply stream_except_effects.
  - apply Forall_app. split; [done|]. apply stream_except_effects.
Qed.

Lemma guarded_run_flushed env interval count (tr : list (event rt)) :
  guarded_run env interval count tr -> flushed_at_once tr = true.
Proof.
  intros [tr' t Hloop|tr' t e Hloop|tr' e Hloop];
    rewrite (loop_run_flushed _ _ _ _ _ _ Hloop); [done| |];
    apply stream_except_effects.
Qed.

End run_facts.

(** ** The other routes *)

Section other_routes.
Context {rt : PyRuntime} (env : Env).

Lemma do_GET_health req :
  path req = health_path ->
  run (do_GET env req)
  = match write_outcome env 0 with
    | None => (Ret tt, health_headers env req ++ [Wrote (health_body env)])
    | Some e =>
        (Raise (OSError e),
         health_headers env req ++ [WriteFailed (health_body env) e])
    end.
Proof.
  intros Hpath. unfold run, do_GET.
  rewrite bool_decide_eq_false_2 by (rewrite Hpath; discriminate).
  rewrite bool_decide_eq_true_2 by done.
  unfold set_cors_headers, mbind, M_bind, bind, time_strftime, wfile_write.
  rewrite send_response_run. cbn -[response_head].
  by destruct (write_outcome env 0).
Qed.

Lemma do_GET_elsewhere req :
  path req <> stream_path -> path req <> health_path ->
  run (do_GET env req)
  = match write_outcome env 0 with
    | None =>
        (Ret tt,
         not_found_headers env req ++ [Wrote (not_found_body (path req))])
    | Some e =>
        (Raise (OSError e),
         not_found_headers env req
         ++ [WriteFailed (not_found_body (path req)) e])
    end.
Proof.
  intros Hstream Hhealth. unfold run, do_GET.
  rewrite !bool_decide_eq_false_2 by done.
  unfold set_cors_headers, mbind, M_bind, bind, wfile_write.
  rewrite send_response_run. cbn -[response_head].
  by destruct (write_outcome env 0).
Qed.

Lemma do_OPTIONS_run req :
  run (do_OPTIONS env req)
  = (Ret tt, response_head env req 200 ++ cors_headers ++ [EndHeaders]).
Proof.
  unfold run, do_OPTIONS, mbind, M_bind, bind.
  rewrite send_response_run. by cbn -[response_head].
Qed.

End other_routes.




(** X3.  Every GET response opens in the same order.  First comes what
    [send_response] does: the access line is printed, the status line,
    200 or 404, is sent, and then the [Server] and [Date] headers.  Then
    the handler sends Content-Type, any further headers of its own, the
    three CORS headers, and ends the headers.  From there on the handler
    only writes, flushes, sleeps and prints.  [do_OPTIONS] answers a
    preflight with the same opening for status 200, five headers in all
    ([Server], [Date] and the three CORS headers), the end of the headers,
    and no body.  The statement is about the calls the handler makes, in
    their order; it says nothing on whether the socket takes the header
    block. *)
Theorem X3_headers_before_body
    {rt : PyRuntime} (env : Env) (req : request) :
  (exists code ctype more rest,
     trace_of (do_GET env req)
     = [Printed (access_line_text env req code) None;
        SendResponse code;
        SendHeader "Server" version_string;
        SendHeader "Date" (date_time_string env);
        SendHeader "Content-Type" ctype]
       ++ more ++ cors_headers ++ EndHeaders :: rest /\
     (code = 200 \/ code = 404) /\
     Forall (fun ev => is_send_header ev = true) more /\
     Forall (fun ev => is_body_event ev = true) rest) /\
  trace_of (do_OPTIONS env req)
  = [Printed (access_line_text env req 200) None;
     SendResponse 200;
     SendHeader "Server" version_string;
     SendHeader "Date" (date_time_string env)]
    ++ cors_headers ++ [EndHeaders].
Proof.
  split; [|unfold trace_of; by rewrite do_OPTIONS_run].
  unfold trace_of.
  destruct (decide (path req = stream_path)) as [Hstream|Hstream].
  { exists 200, "text/event-stream",
      [SendHeader "Cache-Control" "no-cache";
       SendHeader "Connection" "keep-alive"].
    destruct (do_GET_stream_cases env req Hstream)
      as [(e & -> & _)|(interval & count & tr & _ & _ & -> & Hrun)].
    - exists []. split_and!; [done|by left|by repeat constructor|constructor].
    - exists tr. split_and!; [done|by left|by repeat constructor|].
      by eapply guarded_run_body_events. }
  destruct (decide (path req = health_path)) as [Hhealth|Hhealth].
  { exists 200, "application/json", [].
    rewrite (do_GET_health env req Hhealth).
    destruct (write_outcome env 0); eexists;
      (split_and!; [done|by left|constructor|by repeat constructor]). }
  exists 404, "application/json", [].
  rewrite (do_GET_elsewhere env req Hstream Hhealth).
  destruct (write_outcome env 0); eexists;
    (split_and!; [done|by right|constructor|by repeat constructor]).
Qed.

(** ** Parameters left out, and intervals [time.sleep] rejects *)

Section parameters.
Context {rt : PyRuntime} (env : Env).

Lemma read_interval_missing q :
  q !! "interval" = None ->
  result_of (read_interval q)
  = Ret (float_div (float_of_int 1000) (float_of_int 1000)).
Proof.
  intros Hq. unfold result_of, run, read_interval, query_get.
  by rewrite Hq.
Qed.

Lemma requested_count_missing q :
  q !! "count" = None -> result_of (requested_count (rt:=rt) q) = Ret 12.
Proof.
  intros Hq. unfold result_of, run, requested_count, query_get.
  by rewrite Hq.
Qed.

Lemma sleeps_paced_logs_no_wait interval count i entries :
  count <= 1 -> sleeps (paced_logs env interval count i entries) = [].
Proof.
  intros Hcount. revert i.
  induction entries as [|entry rest IH]; intros i; [done|].
  rewrite paced_logs_cons, bool_decide_eq_false_2 by lia. apply IH.
Qed.

Lemma printed_paced_logs interval count i entries :
  printed (paced_logs env interval count i entries) = [].
Proof.
  revert i. induction entries as [|entry rest IH]; intros i; [done|].
  rewrite paced_logs_cons.
  change (printed (Wrote ?c :: Flushed :: ?l)) with (printed l).
  rewrite printed_app, IH. by case_bool_decide.
Qed.

(** The slice is not empty when the count is at least one. *)
Lemma py_slice_to_mock_logs_cons count :
  1 <= count ->
  exists rest, py_slice_to mock_logs count = hd [] mock_logs :: rest.
Proof.
  intros Hcount. rewrite py_slice_to_nonneg by lia.
  destruct (Z.to_nat count) as [|k] eqn:Hk; [lia|]. by eexists.
Qed.

End parameters.

(** X4.  When the query string has neither [count] nor [interval], the
    handler takes count = 12 and interval = float(1000) / 1000.0: over a
    connection that stays open it writes the whole catalog, sleeps eleven
    times for that interval, and completes with totalLogs = 12. *)
Theorem X4_missing_parameters_default
    {rt : PyRuntime} (env : Env) (req : request) :
  path req = stream_path ->
  query req !! "count" = None ->
  query req !! "interval" = None ->
  sleep_error (float_div (float_of_int 1000) (float_of_int 1000)) = None ->
  (forall n, write_outcome env n = None) ->
  let tr := trace_of (do_GET env req) in
  result_of (do_GET env req) = Ret tt /\
  written tr = imap (log_frame env) mock_logs ++ [complete_frame env 12 12] /\
  sleeps tr
  = replicate 11 (float_div (float_of_int 1000) (float_of_int 1000)).
Proof.
  intros Hpath Hcount Hint Hsleep Hw tr.
  pose proof (read_interval_missing _ Hint) as Hiv.
  pose proof (requested_count_missing _ Hcount) as Hn.
  destruct (do_GET_stream_frames env Hw req _ 12 Hpath Hiv Hn)
    as [Hres Hframes]; [by left|].
  destruct (do_GET_paced env Hw req _ 12 Hpath Hiv Hn Hsleep) as [_ Hsl];
    [lia|].
  done.
Qed.

Lemma X4_witness :
  sleeps (trace_of (do_GET (rt:=ref_runtime) calm_env (stream_request [])))
  = replicate 11 (float_div (float_of_int 1000) (float_of_int 1000)).
Proof.
  refine (proj2 (proj2 (X4_missing_parameters_default (rt:=ref_runtime)
    calm_env (stream_request []) _ _ _ _ _)));
  reflexivity.
Defined.

(** X5.  When [time.sleep] rejects the interval (a negative one, say) and
    the requested count is at least two, the stream stops after its first
    frame: the frame is written and flushed, the sleep raises inside the
    [try] block, the except clause prints its one line, no [complete]
    frame is written, and the handler returns normally.  Two lines are
    printed in all: the access line of [send_response], then the line of
    the except clause. *)
Theorem X5_rejected_interval_stops_after_first_frame
    {rt : PyRuntime} (env : Env) (req : request)
    (interval : float) (n : Z) (e : exn) :
  path req = stream_path ->
  result_of (read_interval (query req)) = Ret interval ->
  sleep_error interval = Some e ->
  result_of (requested_count (query req)) = Ret n ->
  2 <= n ->
  write_outcome env 0 = None ->
  let tr := trace_of (do_GET env req) in
  result_of (do_GET env req) = Ret tt /\
  tr = stream_headers env req
       ++ [Wrote (log_frame env 0 (hd [] mock_logs)); Flushed]
       ++ trace_of (stream_except e) /\
  written tr = [log_frame env 0 (hd [] mock_logs)] /\
  complete_frames (written tr) = [] /\
  sleeps tr = [] /\
  exists line,
    printed (trace_of (stream_except (rt:=rt) e)) = [line] /\
    printed tr = [(access_line_text env req 200, None); line].
Proof.
  intros Hpath Hint Hsleep Hcount Hn Hw tr.
  assert (Hrun : run (do_GET env req)
    = (Ret tt, stream_headers env req
               ++ [Wrote (log_frame env 0 (hd [] mock_logs)); Flushed]
               ++ trace_of (stream_except e))).
  { rewrite (do_GET_stream env req Hpath), Hint, read_count_clamps, Hcount.
    rewrite guarded_stream_run. unfold stream_body, mbind, M_bind, bind.
    destruct (py_slice_to_mock_logs_cons (Z.min n 12)) as [rest ->]; [lia|].
    cbn [stream_logs]. unfold mbind, M_bind, bind, time_ms, wfile_write.
    cbn [clock_reads write_calls start]. rewrite Hw.
    rewrite bool_decide_eq_true_2 by lia.
    unfold wfile_flush, emit, time_sleep. rewrite Hsleep. done. }
  subst tr. unfold trace_of, result_of. rewrite Hrun. cbn [fst snd].
  destruct (stream_except_effects (rt:=rt) e) as (Hwr & [line Hp] & _).
  assert (Hsl : sleeps (trace_of (stream_except (rt:=rt) e)) = [])
    by by destruct e as [[]| | | |].
  rewrite !written_app, !sleeps_app, !printed_app, Hwr, Hp, Hsl.
  rewrite printed_stream_headers.
  split_and!; try done. by exists line.
Qed.

Lemma X5_witness :
  written (trace_of (do_GET (rt:=ref_runtime) calm_env
                       (stream_request [("count", ["3"]);
                                        ("interval", ["-1"])])))
  = [log_frame calm_env 0 (hd [] mock_logs)].
Proof.
  refine (proj1 (proj2 (proj2
    (X5_rejected_interval_stops_after_first_frame (rt:=ref_runtime)
       calm_env
       (stream_request [("count", ["3"]); ("interval", ["-1"])])
       (@float_div ref_runtime (inject_Z (-1)) (inject_Z 1000)) 3 ValueError
       _ _ _ _ _ _))));
  [reflexivity | vm_compute; reflexivity | reflexivity
  | vm_compute; reflexivity | lia | reflexivity].
Defined.

(** X6.  For a requested count of one or less the handler never calls
    [time.sleep]: over a connection that stays open the stream completes
    whatever the interval is, even one [time.sleep] would reject, and the
    access line of [send_response] is the only line printed. *)
Theorem X6_count_of_one_or_less_never_sleeps
    {rt : PyRuntime} (env : Env) (req : request) (interval : float) (n : Z) :
  path req = stream_path ->
  result_of (read_interval (query req)) = Ret interval ->
  result_of (requested_count (query req)) = Ret n ->
  n <= 1 ->
  (forall i, write_outcome env i = None) ->
  let tr := trace_of (do_GET env req) in
  result_of (do_GET env req) = Ret tt /\
  sleeps tr = [] /\
  printed tr = [(access_line_text env req 200, None)] /\
  complete_frames (written tr)
  = [complete_frame env (length (py_slice_to mock_logs n)) n].
Proof.
  intros Hpath Hint Hcount Hn Hw tr.
  assert (Hrun := do_GET_stream_ok env Hw req interval n Hpath Hint Hcount
                    (or_intror Hn)).
  cbn zeta in Hrun. replace (Z.min n 12) with n in Hrun by lia.
  destruct (do_GET_stream_frames env Hw req interval n Hpath Hint Hcount
              (or_intror Hn)) as [Hres Hframes].
  cbn zeta in Hframes. replace (Z.min n 12) with n in Hframes by lia.
  subst tr. rewrite Hframes, complete_frames_stream.
  unfold trace_of. rewrite Hrun. cbn [snd].
  rewrite !sleeps_app, !printed_app, sleeps_paced_logs_no_wait by done.
  rewrite printed_paced_logs, printed_stream_headers. done.
Qed.

Lemma X6_witness :
  sleeps (trace_of (do_GET (rt:=ref_runtime) calm_env
                      (stream_request [("count", ["1"]);
                                       ("interval", ["-5"])]))) = [].
Proof.
  refine (proj1 (proj2
    (X6_count_of_one_or_less_never_sleeps (rt:=ref_runtime) calm_env
       (stream_request [("count", ["1"]); ("interval", ["-5"])])
       (@float_div ref_runtime (inject_Z (-5)) (inject_Z 1000)) 1 _ _ _ _ _)));
  [reflexivity | vm_compute; reflexivity | vm_compute; reflexivity
  | lia | reflexivity].
Defined.

(** ** What holds of every response *)

Lemma py_slice_to_prefix {A} (l : list A) (stop : Z) :
  py_slice_to l stop `prefix_of` l.
Proof. unfold py_slice_to. case_bool_decide; apply prefix_take. Qed.

(** X7.  Whatever the request, the clock and the socket do, the payloads
    of the [log] frames that reach the client are a prefix of the catalog,
    in catalog order: never more than twelve, never one out of place; and
    at most one [complete] frame is written. *)
Theorem X7_log_frames_are_a_catalog_prefix
    {rt : PyRuntime} (env : Env) (req : request) :
  let frames := written (trace_of (do_GET env req)) in
  frame_data <$> log_frames frames `prefix_of` mock_logs /\
  (length (log_frames frames) <= 12)%nat /\
  (length (complete_frames frames) <= 1)%nat.
Proof.
  intros frames.
  assert (Hmain : frame_data <$> log_frames frames `prefix_of` mock_logs /\
                  (length (complete_frames frames) <= 1)%nat).
  { subst frames. unfold trace_of.
    destruct (decide (path req = stream_path)) as [Hstream|Hstream].
    - destruct (do_GET_stream_cases env req Hstream)
        as [(e & -> & _)|(interval & count & tr & _ & _ & -> & Hrun)].
      + split; [apply prefix_nil|cbn; lia].
      + cbn [snd]. rewrite written_app.
        change (written (stream_headers env req)) with (@nil chunk). cbn [app].
        destruct (guarded_run_ends _ _ _ _ Hrun)
          as [(c & _ & -> & _ & -> & _)|(_ & -> & Hpre & _)].
        * split; [apply py_slice_to_prefix|done].
        * split; [|cbn; lia].
          etrans; [exact Hpre|apply py_slice_to_prefix].
    - destruct (decide (path req = health_path)) as [Hhealth|Hhealth].
      + rewrite (do_GET_health env req Hhealth).
        destruct (write_outcome env 0); (split; [apply prefix_nil|cbn; lia]).
      + rewrite (do_GET_elsewhere env req Hstream Hhealth).
        destruct (write_outcome env 0); (split; [apply prefix_nil|cbn; lia]). }
  destruct Hmain as [Hpre Hone]. split_and!; [done| |done].
  apply prefix_length in Hpre. by rewrite length_fmap in Hpre.
Qed.

(** X8.  Once both parameters are read, the handler always returns
    normally, and the stream ends in one of two ways, never both: the
    [complete] frame is the last thing delivered, after a [log] frame for
    every entry of the slice, with totalLogs = count, and the access line
    of [send_response] is the only line printed; or no [complete] frame is
    delivered and exactly one line is printed after the access line. *)
Theorem X8_complete_frame_or_one_printed_line
    {rt : PyRuntime} (env : Env) (req : request) (interval : float) (count : Z) :
  path req = stream_path ->
  result_of (read_interval (query req)) = Ret interval ->
  result_of (read_count (query req)) = Ret count ->
  let tr := trace_of (do_GET env req) in
  let frames := written tr in
  result_of (do_GET env req) = Ret tt /\
  ((exists c, frames = log_frames frames ++ [c] /\
              complete_frames frames = [c] /\
              total_logs c = Some (JInt count) /\
              frame_data <$> log_frames frames = py_slice_to mock_logs count /\
              printed tr = [(access_line_text env req 200, None)]) \/
   (frames = log_frames frames /\
    complete_frames frames = [] /\
    exists line, printed tr = [(access_line_text env req 200, None); line])).
Proof.
  intros Hpath Hint Hcount tr frames. subst frames tr.
  unfold trace_of, result_of.
  destruct (do_GET_stream_cases env req Hpath)
    as [(e & _ & [He|He])|(interval' & count' & tr & Hint' & Hcount' & -> & Hrun)];
    [congruence|congruence|].
  assert (interval' = interval) as -> by congruence.
  assert (count' = count) as -> by congruence.
  cbn [fst snd]. split; [done|].
  rewrite written_app, printed_app, printed_stream_headers.
  change (written (stream_headers env req)) with (@nil chunk).
  cbn [app].
  destruct (guarded_run_ends _ _ _ _ Hrun)
    as [(c & Hlast & Hone & Hdata & Hall & Hprint)
       |(Hlogs & Hnone & _ & [line Hline])].
  - left. exists c. rewrite Hprint. split_and!; try done.
    unfold total_logs. by rewrite Hdata.
  - right. rewrite Hline. split_and!; try done. by exists line.
Qed.

Lemma X8_witness :
  result_of (do_GET (rt:=ref_runtime) drop_env (stream_request [])) = Ret tt.
Proof.
  refine (proj1 (X8_complete_frame_or_one_printed_line (rt:=ref_runtime)
    drop_env (stream_request [])
    (@float_div ref_runtime (inject_Z 1000) (inject_Z 1000)) 12 _ _ _));
  [reflexivity | vm_compute; reflexivity | vm_compute; reflexivity].
Defined.

Lemma flushed_at_once_next {rt : PyRuntime} (tr pre post : list (event rt)) c :
  flushed_at_once tr = true ->
  tr = pre ++ Wrote c :: post ->
  exists post', post = Flushed :: post'.
Proof.
  revert pre. induction tr as [|ev tr IH]; intros pre Hfl Heq.
  - by destruct pre.
  - destruct pre as [|ev' pre]; cbn in Heq.
    + injection Heq as -> ->. cbn in Hfl.
      destruct post as [|[] post]; try done. by eexists.
    + injection Heq as <- Heq. apply (IH pre); [|done].
      destruct ev; try done. cbn in Hfl. by destruct tr as [|[] tr].
Qed.

(** X9.  On the streaming route every frame that is delivered is flushed
    at once: in every run, each write that returns is followed directly
    by a flush, before any sleep, further write or print. *)
Theorem X9_stream_frames_are_flushed_at_once
    {rt : PyRuntime} (env : Env) (line : string)
    (q : gmap string (list string)) :
  let tr := trace_of (do_GET env {| requestline := line;
                                    path := stream_path; query := q |}) in
  flushed_at_once tr = true /\
  forall pre c post, tr = pre ++ Wrote c :: post ->
                     exists post', post = Flushed :: post'.
Proof.
  intros tr.
  assert (Hfl : flushed_at_once tr = true).
  { subst tr. unfold trace_of.
    destruct (do_GET_stream_cases env
                {| requestline := line; path := stream_path; query := q |}
                eq_refl)
      as [(e & -> & _)|(interval & count & tr & _ & _ & -> & Hrun)]; [done|].
    cbn [snd]. change (flushed_at_once (stream_headers env _ ++ tr))
      with (flushed_at_once tr).
    by eapply guarded_run_flushed. }
  split; [done|]. intros pre c post. by apply flushed_at_once_next.
Qed.

(** ** A client that goes away after [m] frames *)

Section cut.
Context {rt : PyRuntime} (env : Env).

Lemma pace_ok interval count i c :
  sleep_error interval = None \/ count <= 1 ->
  (if bool_decide (Z.of_nat i < count - 1) then time_sleep interval
   else ret tt) c
  = (Ret tt, c,
     if bool_decide (Z.of_nat i < count - 1) then [Slept interval] else []).
Proof.
  intros Hsleep. case_bool_decide as Hlt; [|done].
  unfold time_sleep. destruct Hsleep as [->|Hle]; [done|lia].
Qed.

Lemma stream_logs_ok_upto interval count entries i :
  sleep_error interval = None \/ count <= 1 ->
  (forall j, (i <= j < i + length entries)%nat -> write_outcome env j = None) ->
  stream_logs env interval count i entries (after_frames i)
  = (Ret tt, after_frames (i + length entries),
     paced_logs env interval count i entries).
Proof.
  intros Hsleep. revert i.
  induction entries as [|entry rest IH]; intros i Hw.
  - cbn. unfold ret, after_frames. by rewrite Nat.add_0_r.
  - cbn [stream_logs paced_logs].
    unfold mbind, M_bind, bind, time_ms, wfile_write, wfile_flush, emit.
    cbn [clock_reads write_calls after_frames].
    rewrite (Hw i) by (cbn [length]; lia).
    fold (after_frames (S i)).
    rewrite (pace_ok interval count i _ Hsleep), (IH (S i)).
    + cbn [length]. by rewrite Nat.add_succ_r.
    + intros j Hj. apply Hw. cbn [length]. lia.
Qed.

Lemma stream_logs_cut interval count pre entry post i e :
  sleep_error interval = None \/ count <= 1 ->
  (forall j, (i <= j < i + length pre)%nat -> write_outcome env j = None) ->
  write_outcome env (i + length pre) = Some e ->
  stream_logs env interval count i (pre ++ entry :: post) (after_frames i)
  = (Raise (OSError e), after_frames (S (i + length pre)),
     paced_logs env interval count i pre
     ++ [WriteFailed (log_frame env (i + length pre) entry) e]).
Proof.
  intros Hsleep. revert i.
  induction pre as [|entry' pre IH]; intros i Hw He.
  - cbn [app length stream_logs paced_logs].
    unfold mbind, M_bind, bind, time_ms, wfile_write.
    cbn [clock_reads write_calls after_frames].
    rewrite Nat.add_0_r in *. by rewrite He.
  - cbn [app stream_logs paced_logs].
    unfold mbind, M_bind, bind, time_ms, wfile_write, wfile_flush, emit.
    cbn [clock_reads write_calls after_frames].
    rewrite (Hw i) by (cbn [length]; lia).
    fold (after_frames (S i)).
    rewrite (pace_ok interval count i _ Hsleep), (IH (S i)).
    + cbn [length]. rewrite !Nat.add_succ_r. cbn [app Nat.add].
      by rewrite <- !app_assoc.
    + intros j Hj. apply Hw. cbn [length]. lia.
    + rewrite <- He. f_equal. cbn [length]. lia.
Qed.

Lemma stream_logs_cut_at interval count entries m entry e :
  sleep_error interval = None \/ count <= 1 ->
  entries !! m = Some entry ->
  (forall j, (j < m)%nat -> write_outcome env j = None) ->
  write_outcome env m = Some e ->
  stream_logs env interval count 0 entries (after_frames 0)
  = (Raise (OSError e), after_frames (S m),
     paced_logs env interval count 0 (take m entries)
     ++ [WriteFailed (log_frame env m entry) e]).
Proof.
  intros Hsleep Hentry Hw He.
  assert (Hlen : length (take m entries) = m).
  { apply lookup_lt_Some in Hentry. rewrite length_take. lia. }
  pose proof (stream_logs_cut interval count (take m entries) entry
                (drop (S m) entries) 0 e Hsleep) as Hcut.
  rewrite Hlen, (take_drop_middle entries m entry Hentry) in Hcut.
  apply Hcut; [|done]. intros j Hj. apply Hw. lia.
Qed.

(** The body of the [try] block when the first [m] writes return and the
    next is refused. *)
Lemma stream_body_cut interval count m e :
  sleep_error interval = None \/ count <= 1 ->
  (m <= length (py_slice_to mock_logs count))%nat ->
  (forall j, (j < m)%nat -> write_outcome env j = None) ->
  write_outcome env m = Some e ->
  exists f,
    stream_body env interval count start
    = (Raise (OSError e), after_frames (S m),
       paced_logs env interval count 0 (take m (py_slice_to mock_logs count))
       ++ [WriteFailed f e]).
Proof.
  intros Hsleep Hm Hw He.
  unfold stream_body, mbind, M_bind, bind.
  change start with (after_frames 0).
  destruct (decide (m < length (py_slice_to mock_logs count))%nat)
    as [Hlt|Hge].
  - destruct (lookup_lt_is_Some_2 _ m Hlt) as [entry Hentry].
    rewrite (stream_logs_cut_at interval count _ m entry e Hsleep Hentry Hw He).
    by eexists.
  - assert (m = length (py_slice_to mock_logs count)) as Heq by lia.
    subst m.
    rewrite stream_logs_ok_upto; [|done|intros j Hj; apply Hw; lia].
    rewrite firstn_all.
    unfold time_strftime, ret, time_ms, wfile_write.
    cbn [clock_reads write_calls after_frames Nat.add].
    rewrite He. cbn [app]. by eexists.
Qed.

Lemma guarded_stream_cut interval count m e :
  sleep_error interval = None \/ count <= 1 ->
  (m <= length (py_slice_to mock_logs count))%nat ->
  (forall j, (j < m)%nat -> write_outcome env j = None) ->
  write_outcome env m = Some e ->
  exists f,
    run (try_except (stream_body env interval count) stream_except)
    = (Ret tt,
       paced_logs env interval count 0 (take m (py_slice_to mock_logs count))
       ++ WriteFailed f e :: trace_of (stream_except (OSError e))).
Proof.
  intros Hsleep Hm Hw He.
  destruct (stream_body_cut interval count m e Hsleep Hm Hw He) as [f Hbody].
  exists f. rewrite guarded_stream_run. cbn zeta. rewrite Hbody.
  cbn [fst snd]. by rewrite <- app_assoc.
Qed.

End cut.

(** X10.  When the first m writes of a stream return and the next one is
    refused, exactly the first m entries of the slice have been delivered
    as [log] frames, no [complete] frame has, the exception is caught and
    the handler returns normally.  What is printed is the access line of
    [send_response] and, after it, the one line of the except clause. *)
Theorem X10_client_gone_after_m_frames
    {rt : PyRuntime} (env : Env) (req : request)
    (interval : float) (count : Z) (m : nat) (e : oserror) :
  path req = stream_path ->
  result_of (read_interval (query req)) = Ret interval ->
  result_of (read_count (query req)) = Ret count ->
  sleep_error interval = None \/ count <= 1 ->
  (m <= length (py_slice_to mock_logs count))%nat ->
  (forall j, (j < m)%nat -> write_outcome env j = None) ->
  write_outcome env m = Some e ->
  let tr := trace_of (do_GET env req) in
  result_of (do_GET env req) = Ret tt /\
  written tr = imap (log_frame env) (take m (py_slice_to mock_logs count)) /\
  length (log_frames (written tr)) = m /\
  complete_frames (written tr) = [] /\
  length (attempted tr) = S m /\
  (exists line,
     printed (trace_of (stream_except (rt:=rt) (OSError e))) = [line]) /\
  printed tr
  = (access_line_text env req 200, None)
    :: printed (trace_of (stream_except (rt:=rt) (OSError e))).
Proof.
  intros Hpath Hint Hcount Hsleep Hm Hw He tr. subst tr.
  unfold trace_of, result_of.
  rewrite (do_GET_stream env req Hpath), Hint, Hcount.
  destruct (guarded_stream_cut env interval count m e Hsleep Hm Hw He)
    as (f & ->).
  cbn [fst snd]. split; [done|].
  set (sent := take m (py_slice_to mock_logs count)).
  set (tr0 := paced_logs env interval count 0 sent).
  assert (Hlen : length sent = m) by (subst sent; rewrite length_take; lia).
  assert (Hwr0 : written tr0 = imap (log_frame env) sent)
    by exact (written_paced_logs env interval count 0 sent).
  assert (Hat0 : attempted tr0 = written tr0).
  { subst tr0. generalize 0%nat. generalize sent.
    intros l. induction l as [|x l IH]; intros i; [done|].
    rewrite paced_logs_cons.
    change (attempted (Wrote ?c :: Flushed :: ?k)) with (c :: attempted k).
    change (written (Wrote ?c :: Flushed :: ?k)) with (c :: written k).
    unfold attempted at 1. rewrite omap_app.
    fold (attempted (paced_logs env interval count (S i) l)).
    rewrite written_app, IH. by case_bool_decide. }
  destruct (stream_except_effects (rt:=rt) (OSError e)) as (Hwr & Hline & _).
  assert (Hatt : attempted (trace_of (stream_except (rt:=rt) (OSError e))) = [])
    by by destruct e.
  assert (Hlogs : Forall (fun c => is_frame "log" c = true)
                    (imap (log_frame env) sent)).
  { apply Forall_forall. intros c Hc.
    apply elem_of_lookup_imap in Hc as (i & x & -> & _). done. }
  destruct (log_frames_all _ Hlogs) as [Hall Hnone].
  assert (Hw1 : written (stream_headers env req ++ tr0
                  ++ WriteFailed f e :: trace_of (stream_except (OSError e)))
                = imap (log_frame env) sent).
  { rewrite !written_app.
    change (written (WriteFailed f e :: ?k)) with (written k).
    rewrite Hwr, Hwr0, app_nil_r. done. }
  rewrite Hw1, Hall, Hnone, length_imap, Hlen. split_and!; try done.
  - unfold attempted. rewrite !omap_app.
    fold (attempted tr0).
    change (omap _ (WriteFailed f e :: ?k)) with (f :: attempted k).
    rewrite Hatt, Hat0, Hwr0, !length_app, length_imap, Hlen. cbn. lia.
  - rewrite !printed_app, printed_stream_headers. subst tr0.
    by rewrite printed_paced_logs.
Qed.

Lemma X10_witness :
  written (trace_of (do_GET (rt:=ref_runtime) drop_env (stream_request [])))
  = imap (log_frame drop_env) (take 3 mock_logs).
Proof.
  refine (proj1 (proj2 (X10_client_gone_after_m_frames (rt:=ref_runtime)
    drop_env (stream_request [])
    (@float_div ref_runtime (inject_Z 1000) (inject_Z 1000)) 12 3
    BrokenPipeError _ _ _ _ _ _ _)));
  [reflexivity | vm_compute; reflexivity | vm_compute; reflexivity
  | by left | vm_compute; lia | | reflexivity].
  intros j Hj. do 3 (destruct j as [|j]; [reflexivity|]). lia.
Defined.

(** ** Counts of zero or more, over a connection that stays open *)

(** X11.  For a requested count of at least one, over a connection that
    stays open and with an interval [time.sleep] accepts, the stream is:
    frame, flush, sleep, frame, flush, sleep, ..., frame, flush, and the
    [complete] frame right after the last [log] frame.  With k = min(count,
    12) frames there are k - 1 sleeps, each of the interval. *)
Theorem X11_sleep_between_frames_only
    {rt : PyRuntime} (env : Env) (req : request) (interval : float) (n : Z) :
  path req = stream_path ->
  result_of (read_interval (query req)) = Ret interval ->
  result_of (requested_count (query req)) = Ret n ->
  sleep_error interval = None ->
  1 <= n ->
  (forall i, write_outcome env i = None) ->
  let k := Z.to_nat (Z.min n 12) in
  trace_of (do_GET env req)
  = stream_headers env req
    ++ paced interval (imap (log_frame env) (take k mock_logs))
    ++ [Wrote (complete_frame env k (Z.min n 12)); Flushed] /\
  sleeps (trace_of (do_GET env req)) = replicate (k - 1) interval.
Proof.
  intros Hpath Hint Hcount Hsleep Hn Hw.
  exact (do_GET_paced env Hw req interval n Hpath Hint Hcount Hsleep Hn).
Qed.

Lemma X11_witness :
  sleeps (trace_of (do_GET (rt:=ref_runtime) calm_env
                      (stream_request [("count", ["3"]);
                                       ("interval", ["250"])])))
  = replicate 2 (@float_div ref_runtime (inject_Z 250) (inject_Z 1000)).
Proof.
  refine (proj2 (X11_sleep_between_frames_only (rt:=ref_runtime) calm_env
    (stream_request [("count", ["3"]); ("interval", ["250"])])
    (@float_div ref_runtime (inject_Z 250) (inject_Z 1000)) 3 _ _ _ _ _ _));
  [reflexivity | vm_compute; reflexivity | vm_compute; reflexivity
  | reflexivity | lia | reflexivity].
Defined.

(** X12.  For a requested count of zero or more, over a connection that
    stays open and with an interval [time.sleep] accepts, the totalLogs
    field of the [complete] frame is the number of [log] frames that were
    written. *)
Theorem X12_total_logs_counts_frames
    {rt : PyRuntime} (env : Env) (req : request) (interval : float) (n : Z) :
  path req = stream_path ->
  result_of (read_interval (query req)) = Ret interval ->
  result_of (requested_count (query req)) = Ret n ->
  sleep_error interval = None ->
  0 <= n ->
  (forall i, write_outcome env i = None) ->
  let frames := written (trace_of (do_GET env req)) in
  total_logs <$> complete_frames frames
  = [Some (JInt (Z.of_nat (length (log_frames frames))))].
Proof.
  intros Hpath Hint Hcount Hsleep Hn Hw.
  exact (total_logs_of_nonneg_count env Hw req interval n
           Hpath Hint Hcount Hsleep Hn).
Qed.

Lemma X12_witness :
  total_logs <$> complete_frames
    (written (trace_of (do_GET (rt:=ref_runtime) calm_env
                          (stream_request [("count", ["999"])]))))
  = [Some (JInt 12)].
Proof.
  refine (X12_total_logs_counts_frames (rt:=ref_runtime) calm_env
    (stream_request [("count", ["999"])])
    (@float_div ref_runtime (inject_Z 1000) (inject_Z 1000)) 999 _ _ _ _ _ _);
  [reflexivity | vm_compute; reflexivity | vm_compute; reflexivity
  | reflexivity | lia | reflexivity].
Defined.

(** X13.  For a requested count of zero, or of minus twelve or less, the
    slice of the catalog is empty: over a connection that stays open the
    [complete] frame is the only thing written, stamped with the first
    clock reading, and its totalLogs field is the requested count as it
    stands, zero or negative. *)
Theorem X13_empty_slice_writes_only_complete
    {rt : PyRuntime} (env : Env) (req : request) (interval : float) (n : Z) :
  path req = stream_path ->
  result_of (read_interval (query req)) = Ret interval ->
  result_of (requested_count (query req)) = Ret n ->
  n = 0 \/ n <= -12 ->
  (forall i, write_outcome env i = None) ->
  written (trace_of (do_GET env req)) = [complete_frame env 0 n] /\
  total_logs (complete_frame env 0 n) = Some (JInt n).
Proof.
  intros Hpath Hint Hcount Hn Hw. split; [|done].
  exact (no_logs_of_empty_slice env Hw req interval n Hpath Hint Hcount Hn).
Qed.

Lemma X13_witness :
  written (trace_of (do_GET (rt:=ref_runtime) calm_env
                       (stream_request [("count", ["-20"])])))
  = [complete_frame calm_env 0 (-20)].
Proof.
  refine (proj1 (X13_empty_slice_writes_only_complete (rt:=ref_runtime)
    calm_env (stream_request [("count", ["-20"])])
    (@float_div ref_runtime (inject_Z 1000) (inject_Z 1000)) (-20) _ _ _ _ _));
  [reflexivity | vm_compute; reflexivity | vm_compute; reflexivity
  | right; lia | reflexivity].
Defined.

(** ** What of the query string matters *)

Section first_values.
Context {rt : PyRuntime}.



End first_values.


